(** * The DNA comparator: sex classification, telomere trimming, comparison

    A shallow embedding of [dna::Comparator] (comparator.hpp): [getSex],
    [getDataRange] and [compare], with the stream and person concepts as
    type classes and the in-memory fakes of the test-suite as instances. *)

From Stdlib Require Import List NArith ZArith PeanoNat Bool Lia Zify ZifyNat ZifyN.
From Stdlib Require String Ascii Decimal DecimalString DecimalNat.
Import ListNotations.

(** ** Bases and packed storage units *)

Inductive base : Type := A | C | G | T.

Definition base_eqb (x y : base) : bool :=
  match x, y with
  | A, A | C, C | G, G | T, T => true
  | _, _ => false
  end.

(** Modelled from the spec: [packed_size] and [pack] are declared in a header
    that is not among the sources.  The spec calls the constant the packed
    factor (bases per storage unit); the tests build every storage unit as
    [pack(b0, b1, b2, b3)], four bases to the unit. *)
Definition packed_size_value : N := 4.

Inductive packed : Type := pack (b0 b1 b2 b3 : base).

Definition unpack (p : packed) : list base :=
  let '(pack b0 b1 b2 b3) := p in [b0; b1; b2; b3].

(** ** Outcomes

    [compare] throws [std::invalid_argument]; [getDataRange] indexes the chunk
    it has read with an unchecked [operator[]].  An index at or past the
    chunk's size is recorded as [OutOfBounds i], [i] being the offending
    index: the C++ program has no defined behaviour from there on. *)

Inductive fault : Type :=
| InvalidInput
| OutOfBounds (index : nat).

Inductive result (X : Type) : Type :=
| Ok (x : X)
| Raise (f : fault).

Arguments Ok {X} x.
Arguments Raise {X} f.

Definition rbind {X Y} (r : result X) (k : X -> result Y) : result Y :=
  match r with
  | Ok x => k x
  | Raise f => Raise f
  end.

Declare Scope result_scope.
Delimit Scope result_scope with result.
Notation "x <- r ;; k" := (rbind r (fun x => k))
  (at level 61, r at next level, right associativity) : result_scope.
Notation "' p <- r ;; k" := (rbind r (fun x => let 'p := x in k))
  (at level 61, p pattern, r at next level, right associativity) : result_scope.

(** ** The HelixStream concept

    [size] counts storage units, [seek] moves the cursor to a unit index and
    [read] hands out the next chunk as a buffer of bases together with the
    advanced stream. *)

Class HelixStream (H : Type) : Type := {
  size : H -> N;
  seek : N -> H -> H;
  read : H -> list base * H
}.

(** [size_t] is 64 bits wide. *)
Definition SIZE_MAX1 : N := 2 ^ 64.

(** [helix.size() * packed_size::value], the product taken in [size_t]. *)
Definition helix_len {H} `{HelixStream H} (helix : H) : N :=
  ((size helix * packed_size_value) mod SIZE_MAX1)%N.

(** ** Constants of [Comparator] *)

Definition NUM_CHROMOSOMES : N := 23.
Definition SEX_CHROMOSOME_IDX : nat := 22.
Definition X_CHROMOSOME_LEN : N := 156000000.
Definition Y_CHROMOSOME_LEN : N := 57000000.
Definition TELOMERE_SEQ : list base := [T; T; A; G; G; G].

(** [TELOMERE_SEQ[i]]; every use in the source reduces the index modulo the
    array size first, or keeps a phase that is already below it. *)
Definition telomere_at (i : nat) : base := nth i TELOMERE_SEQ T.

Inductive SexChromosome : Type := X | Y | MAX.

Definition sex_eqb (s1 s2 : SexChromosome) : bool :=
  match s1, s2 with
  | X, X | Y, Y | MAX, MAX => true
  | _, _ => false
  end.

(** ** getSex *)

Definition getSex {H} `{HelixStream H} (helix : H) : SexChromosome :=
  let helix_len := helix_len helix in
  if ((4 * X_CHROMOSOME_LEN / 5 <? helix_len) &&
      (helix_len <? 5 * X_CHROMOSOME_LEN / 4))%N then X
  else if ((4 * Y_CHROMOSOME_LEN / 5 <? helix_len) &&
           (helix_len <? 5 * Y_CHROMOSOME_LEN / 4))%N then Y
  else MAX.

(** ** getDataRange *)

(** [buffer[i]] on the chunk returned by [read]. *)
Definition buffer_at (buffer : list base) (i : nat) : result base :=
  match nth_error buffer i with
  | Some x => Ok x
  | None => Raise (OutOfBounds i)
  end.

Section DataRange.
Variable buffer : list base.

Local Open Scope result_scope.

(** The inner loop at the front: [b_idx] runs while it is below both the
    pattern length and [buffer.size()], so the index is in range by the loop
    guard; [n] counts the iterations left of the six. *)
Fixpoint front_match (t_idx n : nat) : bool :=
  match n with
  | 0 => true
  | S n' =>
      let b_idx := 6 - n in
      if b_idx <? length buffer then
        if base_eqb (nth b_idx buffer T) (telomere_at ((t_idx + b_idx) mod 6))
        then front_match t_idx n'
        else false
      else true
  end.

(** The outer loop at the front: the first [t_idx] whose six comparisons
    all succeed, [n] counting the starting positions left to try. *)
Fixpoint front_phase (n : nat) : option nat :=
  match n with
  | 0 => None
  | S n' =>
      let t_idx := 6 - n in
      if front_match t_idx 6 then Some t_idx else front_phase n'
  end.

(** [while (data_start < data_end && buffer[data_start] == TELOMERE_SEQ[telomere_idx])];
    [n] is the distance [data_end - data_start], so [n = 0] is the first
    conjunct failing.  Returns the final [data_start] and [telomere_idx]. *)
Fixpoint forward_scan (n data_start telomere_idx : nat) : result (nat * nat) :=
  match n with
  | 0 => Ok (data_start, telomere_idx)
  | S n' =>
      x <- buffer_at buffer data_start ;;
      if base_eqb x (telomere_at telomere_idx)
      then forward_scan n' (S data_start) ((telomere_idx + 1) mod 6)
      else Ok (data_start, telomere_idx)
  end.

(** The inner loop at the back: no guard on the buffer's size here. *)
Fixpoint back_match (data_end t_idx n : nat) : result bool :=
  match n with
  | 0 => Ok true
  | S n' =>
      let b_idx := 6 - n in
      x <- buffer_at buffer (data_end - 1 - b_idx) ;;
      if base_eqb x (telomere_at ((6 + t_idx - b_idx) mod 6))
      then back_match data_end t_idx n'
      else Ok false
  end.

Fixpoint back_phase (data_end n : nat) : result (option nat) :=
  match n with
  | 0 => Ok None
  | S n' =>
      let t_idx := 6 - n in
      m <- back_match data_end t_idx 6 ;;
      if m : bool then Ok (Some t_idx) else back_phase data_end n'
  end.

(** [while (data_end > data_start && buffer[data_end - 1] == TELOMERE_SEQ[telomere_idx])];
    [n] is the distance [data_end - data_start]. *)
Fixpoint backward_scan (n data_end telomere_idx : nat) : result (nat * nat) :=
  match n with
  | 0 => Ok (data_end, telomere_idx)
  | S n' =>
      x <- buffer_at buffer (data_end - 1) ;;
      if base_eqb x (telomere_at telomere_idx)
      then backward_scan n' (data_end - 1) ((6 + telomere_idx - 1) mod 6)
      else Ok (data_end, telomere_idx)
  end.

(** The body of [getDataRange] from the point where the chunk is in hand. *)
Definition trim_buffer (data_end : nat) : result (nat * nat) :=
  let telomere_idx := 0 in
  let data_start := 0 in
  let '(telomere_idx, data_start) :=
    match front_phase 6 with
    | Some t_idx => (t_idx, 6)
    | None => (telomere_idx, data_start)
    end in
  '(data_start, telomere_idx) <-
    forward_scan (data_end - data_start) data_start telomere_idx ;;
  if data_end <? data_start + 6 then Ok (data_start, data_end)
  else
    found <- back_phase data_end 6 ;;
    let '(telomere_idx, data_end) :=
      match found with
      | Some t_idx => (t_idx, data_end - 6)
      | None => (telomere_idx, data_end)
      end in
    '(data_end, _) <-
      backward_scan (data_end - data_start) data_end telomere_idx ;;
    Ok (data_start, data_end).
End DataRange.

(** Indices are kept in [nat] once [data_end] is known: every later value lies
    between [0] and [data_end + 6], and [data_end - 1 - b_idx] is only formed
    with [data_end >= data_start + 6], so no [size_t] operation wraps below
    [2^64 - 6] bases.  The stream is taken by reference and left with its
    cursor past the first chunk; no caller looks at it again, so only the
    range is returned. *)
Definition getDataRange {H} `{HelixStream H} (helix : H) : result (nat * nat) :=
  let data_start := 0 in
  let data_end := N.to_nat (helix_len helix) in
  if data_end <? 6 then Ok (data_start, data_end)
  else
    let helix := seek 0%N helix in
    let '(buffer, _) := read helix in
    trim_buffer buffer data_end.

(** ** Differences and persons *)

(** [subsection] is a half-open range of base indices. *)
Record Difference : Type := mkDifference {
  chromosome_idx : nat;
  person_a : nat * nat;
  person_b : nat * nat
}.

(** The constructor: five indices, paired into the two subsections. *)
Definition new_Difference
  (chromosome_idx person_a_start person_a_end person_b_start person_b_end : nat)
  : Difference :=
  mkDifference chromosome_idx (person_a_start, person_a_end)
               (person_b_start, person_b_end).

Module DifferenceText.
Import String Ascii DecimalString.
Local Open Scope string_scope.

(** [os << n] for a [size_t]: its decimal digits, as an output stream in its
    default state writes them. *)
Definition show_size_t (n : nat) : string :=
  NilEmpty.string_of_uint (Nat.to_uint n).

(** [operator<<(os, d)], the stream being the text written to it so far. *)
Definition print_Difference (os : string) (d : Difference) : string :=
  os ++ "Chromosome " ++ show_size_t (chromosome_idx d)
     ++ " | first sample: [" ++ show_size_t (fst (person_a d))
     ++ ", " ++ show_size_t (snd (person_a d)) ++ "]"
     ++ " second sample: [" ++ show_size_t (fst (person_b d))
     ++ ", " ++ show_size_t (snd (person_b d)) ++ "]".

Definition is_digit (c : ascii) : bool :=
  ((48 <=? nat_of_ascii c)%nat && (nat_of_ascii c <=? 57)%nat)%bool.

Fixpoint all_digits (s : string) : bool :=
  match s with
  | EmptyString => true
  | String c s' => (is_digit c && all_digits s')%bool
  end.
End DifferenceText.

(** The Person concept: a chromosome count and a stream per index. *)
Class Person (P H : Type) `{HelixStream H} : Type := {
  chromosomes : P -> N;
  chromosome : P -> nat -> H
}.

Arguments Person P H {_}.

(** ** compare

    What [compare] does to its two arguments is logged: obtaining a stream
    from a person, classifying a stream, trimming a stream (which seeks and
    reads it). *)

Inductive sample : Type := SampleA | SampleB.

Inductive event : Type :=
| EvChromosome (who : sample) (idx : nat)
| EvGetSex (who : sample) (idx : nat)
| EvGetDataRange (who : sample) (idx : nat).

Definition traced (X : Type) : Type := (list event * result X)%type.

Definition tret {X} (x : X) : traced X := ([], Ok x).

Definition tbind {X Y} (m : traced X) (k : X -> traced Y) : traced Y :=
  match m with
  | (t, Ok x) => let '(t', r) := k x in (t ++ t', r)
  | (t, Raise f) => (t, Raise f)
  end.

Definition emit {X} (e : event) (r : result X) : traced X := ([e], r).

Declare Scope traced_scope.
Delimit Scope traced_scope with traced.
Notation "x <- m ;; k" := (tbind m (fun x => k))
  (at level 61, m at next level, right associativity) : traced_scope.
Notation "' p <- m ;; k" := (tbind m (fun x => let 'p := x in k))
  (at level 61, p pattern, m at next level, right associativity) : traced_scope.

Section Compare.
Context {P H : Type} `{Person P H}.
Variables a b : P.

Local Open Scope traced_scope.

(** One turn of the loop over [chromosome_idx]; [continue] and the end of
    the body both hand [ret] on to the next turn. *)
Definition compare_body (chromosome_idx : nat) (ret : list Difference)
  : traced (list Difference) :=
  helix_a <- emit (EvChromosome SampleA chromosome_idx)
                  (Ok (chromosome a chromosome_idx)) ;;
  helix_b <- emit (EvChromosome SampleB chromosome_idx)
                  (Ok (chromosome b chromosome_idx)) ;;
  skip <-
    (if chromosome_idx =? SEX_CHROMOSOME_IDX then
       a_sex <- emit (EvGetSex SampleA chromosome_idx) (Ok (getSex helix_a)) ;;
       b_sex <- emit (EvGetSex SampleB chromosome_idx) (Ok (getSex helix_b)) ;;
       tret (negb (sex_eqb a_sex b_sex) || sex_eqb a_sex MAX)
     else tret false) ;;
  if skip : bool then tret ret
  else
    '(a_start, a_end) <- emit (EvGetDataRange SampleA chromosome_idx)
                              (getDataRange helix_a) ;;
    '(b_start, b_end) <- emit (EvGetDataRange SampleB chromosome_idx)
                              (getDataRange helix_b) ;;
    tret ret.

(** [for (chromosome_idx = 0; chromosome_idx < NUM_CHROMOSOMES; chromosome_idx++)],
    [n] counting the turns left. *)
Fixpoint compare_loop (n chromosome_idx : nat) (ret : list Difference)
  : traced (list Difference) :=
  match n with
  | 0 => tret ret
  | S n' =>
      ret' <- compare_body chromosome_idx ret ;;
      compare_loop n' (S chromosome_idx) ret'
  end.

Definition compare : traced (list Difference) :=
  if negb (chromosomes a =? NUM_CHROMOSOMES)%N
     || negb (chromosomes b =? NUM_CHROMOSOMES)%N
  then ([], Raise InvalidInput)
  else compare_loop (N.to_nat NUM_CHROMOSOMES) 0 [].

(** The test that makes the loop [continue] at the sex chromosome. *)
Definition skipped (idx : nat) : bool :=
  (idx =? SEX_CHROMOSOME_IDX) &&
  (negb (sex_eqb (getSex (chromosome a idx)) (getSex (chromosome b idx)))
   || sex_eqb (getSex (chromosome a idx)) MAX).

End Compare.

(** ** The in-memory streams and persons of the test-suite *)

(** The stream of comparator_test.cpp that only knows its size; its [seek]
    and [read] do nothing. *)
Record FakeHelixStream : Type := { m_size : N }.

#[export] Instance FakeHelixStream_stream : HelixStream FakeHelixStream := {
  size h := m_size h;
  seek _ h := h;
  read h := ([], h)
}.

(** Modelled from the spec: [fake_stream] (fake_person.hpp is not among the
    sources).  A vector of storage units, a chunk size in storage units and a
    cursor; [read] returns the bases of at most one chunk of units from the
    cursor on and advances the cursor past them; [size] is the number of
    storage units. *)
Record fake_stream : Type := mk_fake_stream {
  fs_data : list packed;
  fs_chunksize : nat;
  fs_offset : nat
}.

Definition new_fake_stream (data : list packed) (chunksize : nat) : fake_stream :=
  mk_fake_stream data chunksize 0.

Definition unpack_all (data : list packed) : list base := flat_map unpack data.

Definition fake_read (h : fake_stream) : list base * fake_stream :=
  let chunk := firstn (fs_chunksize h) (skipn (fs_offset h) (fs_data h)) in
  (unpack_all chunk,
   mk_fake_stream (fs_data h) (fs_chunksize h) (fs_offset h + length chunk)).

#[export] Instance fake_stream_stream : HelixStream fake_stream := {
  size h := N.of_nat (length (fs_data h));
  seek n h := mk_fake_stream (fs_data h) (fs_chunksize h) (N.to_nat n);
  read := fake_read
}.

(** Modelled from the spec: a person as the Person contract describes one, a
    chromosome count and a stream for every index ([fake_person] is not among
    the sources). *)
Record fake_person (H : Type) : Type := {
  fp_chromosomes : N;
  fp_chromosome : nat -> H
}.

Arguments fp_chromosomes {H} _.
Arguments fp_chromosome {H} _ _.

#[export] Instance fake_person_person {H} `{HelixStream H}
  : Person (fake_person H) H := {
  chromosomes := fp_chromosomes;
  chromosome := fp_chromosome
}.

(** ** Vocabulary of the statements *)

(** The whole base sequence a stream of the test-suite holds. *)
Definition stream_bases (h : fake_stream) : list base := unpack_all (fs_data h).

(** The first chunk read after [seek(0)] holds every base of the stream. *)
Definition first_chunk_whole {H} `{HelixStream H} (helix : H) : Prop :=
  N.to_nat (helix_len helix) <= length (fst (read (seek 0%N helix))).

(** A fault that is a read at or past the end of the chunk. *)
Definition past_chunk (buffer : list base) (f : fault) : Prop :=
  exists i, f = OutOfBounds i /\ length buffer <= i.

Definition event_idx (e : event) : nat :=
  match e with
  | EvChromosome _ idx | EvGetSex _ idx | EvGetDataRange _ idx => idx
  end.

Definition is_trim (e : event) : bool :=
  match e with
  | EvGetDataRange _ _ => true
  | _ => false
  end.

(** The bases at the indices [lo <= q < hi] are those of the pattern repeated
    without gaps, index 0 being in phase [t]. *)
Definition cyclic_run (buffer : list base) (t lo hi : nat) : Prop :=
  forall q, lo <= q < hi ->
            nth_error buffer q = Some (telomere_at ((t + q) mod 6)).

Definition is_obtain (e : event) : bool :=
  match e with
  | EvChromosome _ _ => true
  | _ => false
  end.

(** Both persons' streams for the indices below [k], person A's first. *)
Definition streams_in_order (k : nat) : list event :=
  flat_map (fun idx => [EvChromosome SampleA idx; EvChromosome SampleB idx])
           (seq 0 k).

(** [k] telomere periods in a row. *)
Fixpoint periods (k : nat) : list base :=
  match k with
  | 0 => []
  | S k' => TELOMERE_SEQ ++ periods k'
  end.

(** The pattern read cyclically from phase [t]. *)
Definition rotation (t : nat) : list base :=
  map (fun b => telomere_at ((t + b) mod 6)) (seq 0 6).

Definition is_rotation (l : list base) : Prop :=
  exists t, t < 6 /\ l = rotation t.

Definition lastn {X} (n : nat) (l : list X) : list X := skipn (length l - n) l.

Definition head_is (x : base) (l : list base) : bool :=
  match l with
  | y :: _ => base_eqb y x
  | [] => false
  end.

Definition last_is (x : base) (l : list base) : bool := head_is x (rev l).

Definition base_eq_dec (x y : base) : {x = y} + {x <> y}.
Proof. decide equality. Defined.

(** A decision of list equality as a boolean. *)
Definition same_bases (l1 l2 : list base) : bool :=
  if list_eq_dec base_eq_dec l1 l2 then true else false.

Definition is_rotationb (l : list base) : bool :=
  existsb (fun t => same_bases l (rotation t)) (seq 0 6).

(** ** Fixtures *)

(** comparator_test.cpp, the section on a small helix buffer chunk size. *)
Definition small_chunk_data : list packed :=
  [pack G G T T; pack A G G G; pack T T A G; pack G G T T; pack A G G G;
   pack C C C C; pack C C C C; pack C C T T; pack A G G G; pack T T A G;
   pack G G T T].

(** comparator_test.cpp, the sections that read through one large chunk. *)
Definition no_telomeres_data : list packed := [pack C C C C; pack C C C C].
Definition telomere_at_start_data : list packed := [pack T T A G; pack G G C C].
Definition telomeres_at_start_data : list packed :=
  [pack T T A G; pack G G T T; pack A G G G; pack C C C C].
Definition partial_at_start_data : list packed :=
  [pack G G T T; pack A G G G; pack T T A G; pack G G T T; pack A G G G;
   pack C C C C].
Definition telomere_at_end_data : list packed :=
  [pack C C C C; pack C C T T; pack A G G G].
Definition telomeres_at_end_data : list packed :=
  [pack C C C C; pack T T A G; pack G G T T; pack A G G G].
Definition partial_at_end_data : list packed :=
  [pack C C C C; pack C C C C; pack T T A G; pack G G T T].
Definition partial_both_ends_data : list packed :=
  [pack G G T T; pack A G G G; pack T T A G; pack G G T T; pack A G G G;
   pack C C C C; pack C C C C; pack T T A G; pack G G T T].
Definition telomere_like_data : list packed :=
  [pack G G T T; pack A G G G; pack T T A G; pack G G T T; pack A G G G;
   pack G G G G; pack T T T T; pack T T A G; pack G G T T].

(** Further inputs used below. *)
Definition unmatched_head_data : list packed := [pack T T A C; pack C C C C].
Definition unmatched_tail_data : list packed := [pack C C C C; pack C C C T].
Definition partial_after_periods_data : list packed :=
  [pack T T A G; pack G G T T; pack A G G G; pack T C C C].
Definition both_ends_data : list packed :=
  [pack T T A G; pack G G C C; pack C C T T; pack A G G G].

Definition two_periods_data : list packed :=
  [pack T T A G; pack G G T T; pack A G G G].
Definition short_interior_data : list packed :=
  [pack T T A G; pack G G T C; pack C C C C].

(** The fixture with partial telomeres at both ends, a whole period written
    into its interior. *)
Definition interior_period_data : list packed :=
  [pack G G T T; pack A G G G; pack T T A G; pack G G T T; pack A G G G;
   pack C T T A; pack G G G C; pack T T A G; pack G G T T].

(** A person all of whose chromosomes hold [data], served [chunksize] units
    at a time. *)
Definition uniform_person (count : N) (data : list packed) (chunksize : nat)
  : fake_person fake_stream :=
  {| fp_chromosomes := count;
     fp_chromosome := fun _ => new_fake_stream data chunksize |}.

(** A person whose sex chromosome is the fixture of the small-chunk test,
    served one storage unit at a time, the other chromosomes being served
    whole. *)
Definition narrow_sex_person : fake_person fake_stream :=
  {| fp_chromosomes := 23;
     fp_chromosome := fun idx =>
       if idx =? SEX_CHROMOSOME_IDX then new_fake_stream small_chunk_data 1
       else new_fake_stream telomere_like_data 128 |}.

(** A person of size-only streams: [sex_units] storage units in the sex
    chromosome, none in the others. *)
Definition sized_person (sex_units : N) : fake_person FakeHelixStream :=
  {| fp_chromosomes := 23;
     fp_chromosome := fun idx =>
       {| m_size := if idx =? SEX_CHROMOSOME_IDX then sex_units else 0%N |} |}.

(** * Properties *)

Lemma base_eqb_spec (x y : base) : reflect (x = y) (base_eqb x y).
Proof. destruct x, y; simpl; constructor; congruence. Qed.

Lemma base_eqb_refl (x : base) : base_eqb x x = true.
Proof. now destruct x. Qed.

Lemma base_eqb_neq (x y : base) : x <> y -> base_eqb x y = false.
Proof. destruct (base_eqb_spec x y); congruence. Qed.

Ltac read_step :=
  match goal with
  | H : context [buffer_at ?buffer ?i] |- _ =>
      let E := fresh "E" in
      destruct (buffer_at buffer i) eqn:E; simpl in H
  end.

Ltac mod_lia := zify; Z.div_mod_to_equations; lia.

Ltac decide_bases :=
  repeat match goal with
    | |- context [base_eqb ?x ?y] =>
        destruct (base_eqb_spec x y) as [->|?]; [|try reflexivity; congruence]
    end.

(** ** The fixtures of the test-suite *)

Example test_empty_helix : getDataRange (new_fake_stream [] 128) = Ok (0, 0).
Proof. reflexivity. Qed.

Example test_no_telomeres :
  getDataRange (new_fake_stream no_telomeres_data 128) = Ok (0, 8).
Proof. reflexivity. Qed.

Example test_telomere_at_start :
  getDataRange (new_fake_stream telomere_at_start_data 128) = Ok (6, 8).
Proof. reflexivity. Qed.

Example test_telomeres_at_start :
  getDataRange (new_fake_stream telomeres_at_start_data 128) = Ok (12, 16).
Proof. reflexivity. Qed.

Example test_partial_at_start :
  getDataRange (new_fake_stream partial_at_start_data 128) = Ok (20, 24).
Proof. reflexivity. Qed.

Example test_telomere_at_end :
  getDataRange (new_fake_stream telomere_at_end_data 128) = Ok (0, 6).
Proof. reflexivity. Qed.

Example test_telomeres_at_end :
  getDataRange (new_fake_stream telomeres_at_end_data 128) = Ok (0, 4).
Proof. reflexivity. Qed.

Example test_partial_at_end :
  getDataRange (new_fake_stream partial_at_end_data 128) = Ok (0, 8).
Proof. reflexivity. Qed.

Example test_partial_both_ends :
  getDataRange (new_fake_stream partial_both_ends_data 128) = Ok (20, 28).
Proof. reflexivity. Qed.

Example test_telomere_like :
  getDataRange (new_fake_stream telomere_like_data 128) = Ok (20, 28).
Proof. reflexivity. Qed.

Example test_getSex_invalid :
  getSex {| m_size := 0 |} = MAX /\ getSex {| m_size := 100000000 |} = MAX.
Proof. split; reflexivity. Qed.

Example test_getSex_X :
  getSex {| m_size := 156000000 / 4 |} = X /\
  getSex {| m_size := 150000000 / 4 |} = X /\
  getSex {| m_size := 160000000 / 4 |} = X.
Proof. repeat split; reflexivity. Qed.

Example test_getSex_Y :
  getSex {| m_size := 57000000 / 4 |} = Y /\
  getSex {| m_size := 50000000 / 4 |} = Y /\
  getSex {| m_size := 60000000 / 4 |} = Y.
Proof. repeat split; reflexivity. Qed.

(** ** getSex *)

Section SexClassifier.
Context {H : Type} `{HelixStream H}.
Variable helix : H.

Local Open Scope N_scope.

(** The bounds of the two bands are whole numbers: the integer divisions of
    the source lose nothing. *)
Lemma band_bounds :
  4 * X_CHROMOSOME_LEN / 5 = 124800000 /\ 5 * X_CHROMOSOME_LEN / 4 = 195000000 /\
  4 * Y_CHROMOSOME_LEN / 5 = 45600000 /\ 5 * Y_CHROMOSOME_LEN / 4 = 71250000 /\
  5 * 124800000 = 4 * X_CHROMOSOME_LEN /\ 4 * 195000000 = 5 * X_CHROMOSOME_LEN /\
  5 * 45600000 = 4 * Y_CHROMOSOME_LEN /\ 4 * 71250000 = 5 * Y_CHROMOSOME_LEN.
Proof. repeat split; reflexivity. Qed.

Lemma helix_len_exact :
  size helix * packed_size_value < SIZE_MAX1 ->
  helix_len helix = size helix * packed_size_value.
Proof. intros Hlt. unfold helix_len. now apply N.mod_small. Qed.

Lemma getSex_unfold :
  getSex helix =
  if (124800000 <? helix_len helix) && (helix_len helix <? 195000000) then X
  else if (45600000 <? helix_len helix) && (helix_len helix <? 71250000) then Y
  else MAX.
Proof. reflexivity. Qed.

Lemma getSex_X_iff :
  getSex helix = X <-> 124800000 < helix_len helix < 195000000.
Proof.
  rewrite getSex_unfold.
  destruct (N.ltb_spec 124800000 (helix_len helix));
    destruct (N.ltb_spec (helix_len helix) 195000000);
    destruct (N.ltb_spec 45600000 (helix_len helix));
    destruct (N.ltb_spec (helix_len helix) 71250000);
    simpl; split; intros; try discriminate; try reflexivity; lia.
Qed.

Lemma getSex_Y_iff :
  getSex helix = Y <-> 45600000 < helix_len helix < 71250000.
Proof.
  rewrite getSex_unfold.
  destruct (N.ltb_spec 124800000 (helix_len helix));
    destruct (N.ltb_spec (helix_len helix) 195000000);
    destruct (N.ltb_spec 45600000 (helix_len helix));
    destruct (N.ltb_spec (helix_len helix) 71250000);
    simpl; split; intros; try discriminate; try reflexivity; lia.
Qed.

Lemma getSex_MAX_iff :
  getSex helix = MAX <->
  (helix_len helix <= 124800000 \/ 195000000 <= helix_len helix) /\
  (helix_len helix <= 45600000 \/ 71250000 <= helix_len helix).
Proof.
  rewrite getSex_unfold.
  destruct (N.ltb_spec 124800000 (helix_len helix));
    destruct (N.ltb_spec (helix_len helix) 195000000);
    destruct (N.ltb_spec 45600000 (helix_len helix));
    destruct (N.ltb_spec (helix_len helix) 71250000);
    simpl; split; intros; try discriminate; try reflexivity; lia.
Qed.

(** C5, amended.  For a stream whose base length L = size() * packed factor
    is below 2^64, so that the product does not wrap in [size_t]: L strictly
    inside (124,800,000, 195,000,000) gives X, L strictly inside
    (45,600,000, 71,250,000) gives Y, L at or outside both bands gives the
    sentinel MAX (Unknown); L = 0 and L = 100,000,000 are Unknown. *)
Theorem getSex_bands_no_wrap :
  let L := size helix * packed_size_value in
  L < SIZE_MAX1 ->
  (124800000 < L < 195000000 -> getSex helix = X) /\
  (45600000 < L < 71250000 -> getSex helix = Y) /\
  ((L <= 124800000 \/ 195000000 <= L) ->
   (L <= 45600000 \/ 71250000 <= L) -> getSex helix = MAX) /\
  (L = 0 -> getSex helix = MAX) /\
  (L = 100000000 -> getSex helix = MAX).
Proof.
  intros L Hfit. pose proof (helix_len_exact Hfit) as Hlen. fold L in Hlen.
  rewrite getSex_X_iff, getSex_Y_iff, getSex_MAX_iff, Hlen.
  split; [|split; [|split; [|split]]].
  - tauto.
  - tauto.
  - tauto.
  - intros HL. lia.
  - intros HL. lia.
Qed.

(** C6, amended.  The bands are open: strictly inside the X band the result
    is X, strictly inside the Y band it is Y, and a length equal to any of
    the four endpoints is classified MAX (Unknown). *)
Theorem getSex_open_bands :
  let L := helix_len helix in
  (124800000 < L < 195000000 -> getSex helix = X) /\
  (45600000 < L < 71250000 -> getSex helix = Y) /\
  (L = 4 * X_CHROMOSOME_LEN / 5 \/ L = 5 * X_CHROMOSOME_LEN / 4 \/
   L = 4 * Y_CHROMOSOME_LEN / 5 \/ L = 5 * Y_CHROMOSOME_LEN / 4 ->
   getSex helix = MAX).
Proof.
  intros L. subst L. repeat split.
  - apply getSex_X_iff.
  - apply getSex_Y_iff.
  - destruct band_bounds as (-> & -> & -> & -> & _).
    intros HL. apply getSex_MAX_iff. lia.
Qed.
End SexClassifier.

Lemma getSex_bands_no_wrap_witness :
  getSex {| m_size := 39000000 |} = X /\
  getSex {| m_size := 14250000 |} = Y /\
  getSex {| m_size := 100000000 |} = MAX /\
  getSex {| m_size := 0 |} = MAX /\
  getSex {| m_size := 25000000 |} = MAX.
Proof.
  pose proof (getSex_bands_no_wrap {| m_size := 39000000 |} eq_refl)
    as (HX & _).
  pose proof (getSex_bands_no_wrap {| m_size := 14250000 |} eq_refl)
    as (_ & HY & _).
  pose proof (getSex_bands_no_wrap {| m_size := 100000000 |} eq_refl)
    as (_ & _ & HM & _).
  pose proof (getSex_bands_no_wrap {| m_size := 0 |} eq_refl)
    as (_ & _ & _ & H0 & _).
  pose proof (getSex_bands_no_wrap {| m_size := 25000000 |} eq_refl)
    as (_ & _ & _ & _ & H1).
  refine (conj (HX _) (conj (HY _) (conj (HM _ _) (conj (H0 _) (H1 _))))).
  - vm_compute. split; reflexivity.
  - vm_compute. split; reflexivity.
  - right. vm_compute. discriminate.
  - right. vm_compute. discriminate.
  - reflexivity.
  - reflexivity.
Defined.

(** C5 as stated fails: for a size-only stream of 2^62 + 39,000,000 storage
    units the product size() * 4 is 2^64 + 156,000,000 bases, outside both
    bands, but taken in [size_t] it is 156,000,000 and the stream is
    classified X, not MAX. *)
Lemma getSex_wrapped_length :
  ((size {| m_size := 2 ^ 62 + 39000000 |} * packed_size_value <= 124800000 \/
    195000000 <= size {| m_size := 2 ^ 62 + 39000000 |} * packed_size_value) /\
   (size {| m_size := 2 ^ 62 + 39000000 |} * packed_size_value <= 45600000 \/
    71250000 <= size {| m_size := 2 ^ 62 + 39000000 |} * packed_size_value))%N /\
  (m_size {| m_size := 2 ^ 62 + 39000000 |} < SIZE_MAX1)%N /\
  getSex {| m_size := 2 ^ 62 + 39000000 |} = X /\
  getSex {| m_size := 2 ^ 62 + 39000000 |} <> MAX.
Proof.
  split; [split; right; vm_compute; discriminate|].
  split; [reflexivity|]. split; [reflexivity | vm_compute; discriminate].
Qed.

(** C6 as stated fails: a stream of 31,200,000 storage units has exactly
    4/5 of the reference X length, inside the closed band, and is not
    classified X; likewise the upper endpoint and the endpoints of the Y
    band. *)
Lemma getSex_endpoints_not_classified :
  (helix_len {| m_size := 31200000 |} = (4 * 156000000 / 5)%N /\
   getSex {| m_size := 31200000 |} <> X) /\
  (helix_len {| m_size := 48750000 |} = (5 * 156000000 / 4)%N /\
   getSex {| m_size := 48750000 |} <> X) /\
  (helix_len {| m_size := 11400000 |} = (4 * 57000000 / 5)%N /\
   getSex {| m_size := 11400000 |} <> Y) /\
  (helix_len {| m_size := 17812500 |} = (5 * 57000000 / 4)%N /\
   getSex {| m_size := 17812500 |} <> Y).
Proof. repeat split; try reflexivity; vm_compute; discriminate. Qed.

Lemma getSex_open_bands_witness :
  getSex {| m_size := 31200001 |} = X /\
  getSex {| m_size := 17812499 |} = Y /\
  getSex {| m_size := 31200000 |} = MAX.
Proof.
  pose proof (getSex_open_bands {| m_size := 31200001 |}) as (HX & _).
  pose proof (getSex_open_bands {| m_size := 17812499 |}) as (_ & HY & _).
  pose proof (getSex_open_bands {| m_size := 31200000 |}) as (_ & _ & HM).
  refine (conj (HX _) (conj (HY _) (HM _))).
  - vm_compute. split; reflexivity.
  - vm_compute. split; reflexivity.
  - left. reflexivity.
Defined.

(** ** getDataRange: bounds, faults and totality *)

Lemma buffer_at_Ok (buffer : list base) (i : nat) (x : base) :
  buffer_at buffer i = Ok x <-> nth_error buffer i = Some x.
Proof.
  unfold buffer_at. destruct (nth_error buffer i); split; congruence.
Qed.

Lemma buffer_at_Raise (buffer : list base) (i : nat) (f : fault) :
  buffer_at buffer i = Raise f <-> f = OutOfBounds i /\ length buffer <= i.
Proof.
  unfold buffer_at. destruct (nth_error buffer i) eqn:E.
  - split; [discriminate|]. intros [_ Hle].
    apply nth_error_None in Hle. congruence.
  - apply nth_error_None in E. split; [intros [= <-]; auto | intros [-> _]; auto].
Qed.

Lemma buffer_at_in_range (buffer : list base) (i : nat) :
  i < length buffer -> exists x, buffer_at buffer i = Ok x.
Proof.
  intros Hlt. unfold buffer_at. destruct (nth_error buffer i) eqn:E; eauto.
  apply nth_error_None in E. lia.
Qed.

Section DataRangeFacts.
Variable buffer : list base.

Lemma forward_scan_bounds n : forall p i p' i',
  forward_scan buffer n p i = Ok (p', i') -> p <= p' <= p + n.
Proof.
  induction n as [|n IH]; intros p i p' i' Hs; simpl in Hs.
  - injection Hs as <- <-. lia.
  - read_step; [|discriminate].
    destruct (base_eqb x (telomere_at i)).
    + apply IH in Hs. lia.
    + injection Hs as <- <-. lia.
Qed.

Lemma forward_scan_fault n : forall p i f,
  forward_scan buffer n p i = Raise f -> past_chunk buffer f.
Proof.
  induction n as [|n IH]; intros p i f Hs; simpl in Hs; [discriminate|].
  read_step.
  - destruct (base_eqb x (telomere_at i)); [eauto | discriminate].
  - injection Hs as <-. apply buffer_at_Raise in E as [-> Hle].
    exists p. auto.
Qed.

Lemma forward_scan_total n : forall p i,
  p + n <= length buffer ->
  exists p' i', forward_scan buffer n p i = Ok (p', i').
Proof.
  induction n as [|n IH]; intros p i Hle; simpl; [eauto|].
  destruct (buffer_at_in_range buffer p) as [x ->]; [lia|]. simpl.
  destruct (base_eqb x (telomere_at i)); [|eauto].
  apply IH. lia.
Qed.

Lemma backward_scan_bounds n : forall e i e' i',
  backward_scan buffer n e i = Ok (e', i') -> e - n <= e' <= e.
Proof.
  induction n as [|n IH]; intros e i e' i' Hs; simpl in Hs.
  - injection Hs as <- <-. lia.
  - read_step; [|discriminate].
    destruct (base_eqb x (telomere_at i)).
    + apply IH in Hs. lia.
    + injection Hs as <- <-. lia.
Qed.

Lemma backward_scan_fault n : forall e i f,
  backward_scan buffer n e i = Raise f -> past_chunk buffer f.
Proof.
  induction n as [|n IH]; intros e i f Hs; simpl in Hs; [discriminate|].
  read_step.
  - destruct (base_eqb x (telomere_at i)); [eauto | discriminate].
  - injection Hs as <-. apply buffer_at_Raise in E as [-> Hle].
    exists (e - 1). auto.
Qed.

Lemma backward_scan_total n : forall e i,
  n <= e -> e <= length buffer ->
  exists e' i', backward_scan buffer n e i = Ok (e', i').
Proof.
  induction n as [|n IH]; intros e i Hn Hle; simpl; [eauto|].
  destruct (buffer_at_in_range buffer (e - 1)) as [x ->]; [lia|]. simpl.
  destruct (base_eqb x (telomere_at i)); [|eauto].
  apply IH; lia.
Qed.

Lemma back_match_fault data_end t_idx n : forall f,
  back_match buffer data_end t_idx n = Raise f -> past_chunk buffer f.
Proof.
  induction n as [|n IH]; intros f Hs; simpl in Hs; [discriminate|].
  read_step.
  - destruct (base_eqb x _); [eauto | discriminate].
  - injection Hs as <-. apply buffer_at_Raise in E as [-> Hle].
    eexists. eauto.
Qed.

Lemma back_match_total data_end t_idx n :
  1 <= data_end <= length buffer ->
  exists m, back_match buffer data_end t_idx n = Ok m.
Proof.
  intros Hle. induction n as [|n IH]; cbn [back_match]; [eauto|].
  destruct (buffer_at_in_range buffer (data_end - 1 - (6 - S n))) as [x ->];
    [lia|]. cbn [rbind].
  destruct (base_eqb x _); eauto.
Qed.

Lemma back_phase_fault data_end n : forall f,
  back_phase buffer data_end n = Raise f -> past_chunk buffer f.
Proof.
  induction n as [|n IH]; intros f Hs; cbn [back_phase] in Hs; [discriminate|].
  destruct (back_match buffer data_end (6 - S n) 6) as [[|]|f'] eqn:E;
    cbn [rbind] in Hs.
  - discriminate.
  - eauto.
  - injection Hs as <-. eapply back_match_fault; eauto.
Qed.

Lemma back_phase_total data_end n :
  1 <= data_end <= length buffer ->
  exists found, back_phase buffer data_end n = Ok found.
Proof.
  intros Hle. induction n as [|n IH]; cbn [back_phase]; [eauto|].
  destruct (back_match_total data_end (6 - S n) 6 Hle) as [m ->]. cbn [rbind].
  destruct m; eauto.
Qed.

Lemma trim_buffer_bounds data_end s e :
  6 <= data_end ->
  trim_buffer buffer data_end = Ok (s, e) -> s <= e <= data_end.
Proof.
  intros H6. unfold trim_buffer.
  set (start := match front_phase buffer 6 with
                | Some t_idx => (t_idx, 6) | None => (0, 0) end).
  assert (Hstart : snd start <= 6) by (subst start; destruct front_phase; simpl; lia).
  destruct start as [t0 s0]. simpl in Hstart.
  destruct (forward_scan buffer (data_end - s0) s0 t0) as [[s1 t1]|] eqn:Ef;
    cbn [rbind]; [|discriminate].
  apply forward_scan_bounds in Ef.
  destruct (Nat.ltb_spec data_end (s1 + 6)) as [Hlt|Hge].
  - intros [= <- <-]. lia.
  - destruct (back_phase buffer data_end 6) as [found|] eqn:Eb; cbn [rbind];
      [|discriminate].
    set (stop := match found with
                 | Some t_idx => (t_idx, data_end - 6) | None => (t1, data_end) end).
    assert (Hstop : s1 <= snd stop <= data_end)
      by (subst stop; destruct found; simpl; lia).
    destruct stop as [t2 e0]. simpl in Hstop.
    destruct (backward_scan buffer (e0 - s1) e0 t2) as [[e1 t3]|] eqn:Ew;
      cbn [rbind]; [|discriminate].
    apply backward_scan_bounds in Ew.
    intros [= <- <-]. lia.
Qed.

Lemma trim_buffer_fault data_end f :
  trim_buffer buffer data_end = Raise f -> past_chunk buffer f.
Proof.
  unfold trim_buffer.
  destruct (match front_phase buffer 6 with
            | Some t_idx => (t_idx, 6) | None => (0, 0) end) as [t0 s0].
  destruct (forward_scan buffer (data_end - s0) s0 t0) as [[s1 t1]|f1] eqn:Ef;
    cbn [rbind].
  - destruct (data_end <? s1 + 6); [discriminate|].
    destruct (back_phase buffer data_end 6) as [found|f2] eqn:Eb; cbn [rbind].
    + destruct (match found with
                | Some t_idx => (t_idx, data_end - 6) | None => (t1, data_end) end)
        as [t2 e0].
      destruct (backward_scan buffer (e0 - s1) e0 t2) as [[e1 t3]|f3] eqn:Ew;
        cbn [rbind]; [discriminate|].
      intros [= <-]. eapply backward_scan_fault; eauto.
    + intros [= <-]. eapply back_phase_fault; eauto.
  - intros [= <-]. eapply forward_scan_fault; eauto.
Qed.

Lemma trim_buffer_total data_end :
  6 <= data_end <= length buffer ->
  exists s e, trim_buffer buffer data_end = Ok (s, e).
Proof.
  intros [H6 Hle]. unfold trim_buffer.
  set (start := match front_phase buffer 6 with
                | Some t_idx => (t_idx, 6) | None => (0, 0) end).
  assert (Hstart : snd start <= 6) by (subst start; destruct front_phase; simpl; lia).
  destruct start as [t0 s0]. simpl in Hstart.
  destruct (forward_scan_total (data_end - s0) s0 t0) as (s1 & t1 & Ef); [lia|].
  rewrite Ef. cbn [rbind]. apply forward_scan_bounds in Ef.
  destruct (Nat.ltb_spec data_end (s1 + 6)) as [Hlt|Hge]; [eauto|].
  destruct (back_phase_total data_end 6) as [found ->]; [lia|]. cbn [rbind].
  set (stop := match found with
               | Some t_idx => (t_idx, data_end - 6) | None => (t1, data_end) end).
  assert (Hstop : s1 <= snd stop <= data_end)
    by (subst stop; destruct found; simpl; lia).
  destruct stop as [t2 e0]. simpl in Hstop.
  destruct (backward_scan_total (e0 - s1) e0 t2) as (e1 & t3 & ->); [lia|lia|].
  cbn [rbind]. eauto.
Qed.
End DataRangeFacts.

Section DataRangeOfStream.
Context {H : Type} `{HelixStream H}.
Variable helix : H.

Lemma helix_len_le : (helix_len helix <= size helix * packed_size_value)%N.
Proof. unfold helix_len. apply N.Div0.mod_le. Qed.

Lemma getDataRange_short :
  N.to_nat (helix_len helix) < 6 ->
  getDataRange helix = Ok (0, N.to_nat (helix_len helix)).
Proof.
  intros Hlt. unfold getDataRange.
  destruct (Nat.ltb_spec (N.to_nat (helix_len helix)) 6); [reflexivity | lia].
Qed.

Lemma getDataRange_long :
  6 <= N.to_nat (helix_len helix) ->
  getDataRange helix =
  trim_buffer (fst (read (seek 0%N helix))) (N.to_nat (helix_len helix)).
Proof.
  intros Hge. unfold getDataRange.
  destruct (Nat.ltb_spec (N.to_nat (helix_len helix)) 6); [lia|].
  now destruct (read (seek 0%N helix)).
Qed.

Lemma getDataRange_fault (f : fault) :
  getDataRange helix = Raise f ->
  past_chunk (fst (read (seek 0%N helix))) f.
Proof.
  destruct (Nat.lt_ge_cases (N.to_nat (helix_len helix)) 6) as [Hlt|Hge].
  - rewrite getDataRange_short by assumption. discriminate.
  - rewrite getDataRange_long by assumption. apply trim_buffer_fault.
Qed.

Lemma getDataRange_total :
  first_chunk_whole helix -> exists s e, getDataRange helix = Ok (s, e).
Proof.
  intros Hwhole.
  destruct (Nat.lt_ge_cases (N.to_nat (helix_len helix)) 6) as [Hlt|Hge].
  - rewrite getDataRange_short by assumption. eauto.
  - rewrite getDataRange_long by assumption.
    apply trim_buffer_total. split; assumption.
Qed.

(** C9. Whatever pair [getDataRange] returns satisfies
    0 <= start <= end <= total length in bases, and it does return a pair
    whenever the first chunk holds the whole sequence; an empty stream gives
    [0, 0) and a stream of fewer than 6 bases is returned whole, whatever
    the chunk size. *)
Theorem getDataRange_within_bounds :
  let total := N.to_nat (size helix * packed_size_value) in
  (forall s e, getDataRange helix = Ok (s, e) -> 0 <= s /\ s <= e /\ e <= total) /\
  (first_chunk_whole helix -> exists s e, getDataRange helix = Ok (s, e)) /\
  (size helix = 0%N -> getDataRange helix = Ok (0, 0)) /\
  (total < 6 -> getDataRange helix = Ok (0, total)).
Proof.
  intros total.
  assert (Hle : N.to_nat (helix_len helix) <= total)
    by (subst total; pose proof helix_len_le; lia).
  repeat apply conj.
  - intros s e Hr.
    destruct (Nat.lt_ge_cases (N.to_nat (helix_len helix)) 6) as [Hlt|Hge].
    + rewrite getDataRange_short in Hr by assumption.
      injection Hr as <- <-. lia.
    + rewrite getDataRange_long in Hr by assumption.
      apply trim_buffer_bounds in Hr; lia.
  - apply getDataRange_total.
  - intros Hz.
    assert (Hl : helix_len helix = 0%N)
      by (unfold helix_len; rewrite Hz; reflexivity).
    rewrite getDataRange_short; rewrite Hl; simpl; [reflexivity | lia].
  - intros Hlt.
    assert (Hl : helix_len helix = (size helix * packed_size_value)%N).
    { unfold helix_len. apply N.mod_small.
      subst total. unfold SIZE_MAX1.
      assert (size helix * packed_size_value < 6)%N by lia.
      eapply N.lt_trans; [eassumption | reflexivity]. }
    rewrite getDataRange_short; rewrite Hl; [reflexivity | assumption].
Qed.
End DataRangeOfStream.

Lemma getDataRange_within_bounds_witness :
  (0 <= 12 /\ 12 <= 16 /\ 16 <= 16) /\
  (exists s e, getDataRange (new_fake_stream telomeres_at_start_data 128) = Ok (s, e)) /\
  getDataRange (new_fake_stream [] 1) = Ok (0, 0) /\
  getDataRange (new_fake_stream [pack T T A G] 1) = Ok (0, 4).
Proof.
  pose proof (getDataRange_within_bounds (new_fake_stream telomeres_at_start_data 128))
    as (Hb & Ht & _).
  pose proof (getDataRange_within_bounds (new_fake_stream [] 1)) as (_ & _ & H0 & _).
  pose proof (getDataRange_within_bounds (new_fake_stream [pack T T A G] 1))
    as (_ & _ & _ & H4).
  refine (conj (Hb 12 16 _) (conj (Ht _) (conj (H0 _) (H4 _)))).
  - reflexivity.
  - unfold first_chunk_whole. vm_compute. lia.
  - reflexivity.
  - vm_compute. lia.
Defined.

(** ** Chunks smaller than the sequence *)

(** C1. The fixture of the test on a small helix buffer chunk size: read through
    one chunk the range is [20, 30), the values the test expects; read one
    storage unit at a time the forward scan indexes the 4-base chunk at 6. *)
Theorem getDataRange_depends_on_chunk_size :
  getDataRange (new_fake_stream small_chunk_data 128) = Ok (20, 30) /\
  getDataRange (new_fake_stream small_chunk_data 1) = Raise (OutOfBounds 6).
Proof. split; reflexivity. Qed.

(** C2. With one storage unit per chunk the chunk holds 4 bases; the forward
    scan reads [buffer[6]] after a match of the head, and without a match of
    the head the backward comparison reads [buffer[data_end - 1]], index 7. *)
Theorem getDataRange_reads_past_chunk :
  (length (fst (read (seek 0%N (new_fake_stream telomere_at_start_data 1)))) = 4 /\
   getDataRange (new_fake_stream telomere_at_start_data 1) = Raise (OutOfBounds 6)) /\
  (length (fst (read (seek 0%N (new_fake_stream no_telomeres_data 1)))) = 4 /\
   getDataRange (new_fake_stream no_telomeres_data 1) = Raise (OutOfBounds 7)).
Proof. repeat split. Qed.

(** ** Ends that match no rotation *)

Lemma is_rotationb_spec (l : list base) : is_rotationb l = true <-> is_rotation l.
Proof.
  unfold is_rotationb, is_rotation. rewrite existsb_exists. split.
  - intros (t & Hin & Ht). apply in_seq in Hin. unfold same_bases in Ht.
    destruct (list_eq_dec base_eq_dec l (rotation t)); [|discriminate].
    exists t. split; [lia | assumption].
  - intros (t & Hlt & ->). exists t. split; [apply in_seq; lia|].
    unfold same_bases.
    destruct (list_eq_dec base_eq_dec (rotation t) (rotation t)); congruence.
Qed.

Lemma not_rotation (l : list base) : is_rotationb l = false -> ~ is_rotation l.
Proof. intros Hb Hr. apply is_rotationb_spec in Hr. congruence. Qed.

(** C4. TTACCCCC: the six leading bases are no rotation of the pattern, yet
    the forward scan runs with phase 0 and returns start = 3.  CCCCCCCT: the
    six trailing bases are no rotation, yet the backward scan runs with the
    phase the forward scan left behind and returns end = 7 of 8. *)
Theorem getDataRange_trims_unmatched_ends :
  (6 <= length (stream_bases (new_fake_stream unmatched_head_data 128)) /\
   ~ is_rotation (firstn 6 (stream_bases (new_fake_stream unmatched_head_data 128))) /\
   getDataRange (new_fake_stream unmatched_head_data 128) = Ok (3, 8)) /\
  (6 <= length (stream_bases (new_fake_stream unmatched_tail_data 128)) /\
   ~ is_rotation (lastn 6 (stream_bases (new_fake_stream unmatched_tail_data 128))) /\
   getDataRange (new_fake_stream unmatched_tail_data 128) = Ok (0, 7)).
Proof.
  split; (split; [vm_compute; lia | split; [apply not_rotation|]; reflexivity]).
Qed.

(** C3 as stated fails: two leading periods followed by the interior TCCC,
    which neither begins nor ends with a full period; the claim gives
    start = 12, the scan goes on through the T and returns 13. *)
Lemma getDataRange_trims_partial_period :
  first_chunk_whole (new_fake_stream partial_after_periods_data 128) /\
  stream_bases (new_fake_stream partial_after_periods_data 128)
    = periods 2 ++ [T; C; C; C] ++ periods 0 /\
  firstn 6 [T; C; C; C] <> TELOMERE_SEQ /\
  lastn 6 [T; C; C; C] <> TELOMERE_SEQ /\
  getDataRange (new_fake_stream partial_after_periods_data 128) = Ok (13, 16) /\
  getDataRange (new_fake_stream partial_after_periods_data 128)
    <> Ok (6 * 2, length (stream_bases (new_fake_stream partial_after_periods_data 128)) - 6 * 0).
Proof.
  repeat apply conj; try reflexivity; try (vm_compute; discriminate).
  unfold first_chunk_whole. vm_compute. lia.
Qed.

(** ** compare *)

Lemma snd_tbind {X Y} (m : traced X) (k : X -> traced Y) :
  snd (tbind m k) =
  match snd m with
  | Ok x => snd (k x)
  | Raise f => Raise f
  end.
Proof.
  destruct m as [t [x|f]]; simpl; [|reflexivity]. now destruct (k x).
Qed.

Lemma fst_tbind {X Y} (m : traced X) (k : X -> traced Y) :
  fst (tbind m k) =
  fst m ++ match snd m with
           | Ok x => fst (k x)
           | Raise f => []
           end.
Proof.
  destruct m as [t [x|f]]; simpl; [|now rewrite app_nil_r]. now destruct (k x).
Qed.

Section CompareFacts.
Context {P H : Type} `{Person P H}.
Variables a b : P.

Lemma compare_body_skipped idx ret :
  skipped a b idx = true ->
  compare_body a b idx ret =
  ([EvChromosome SampleA idx; EvChromosome SampleB idx;
    EvGetSex SampleA idx; EvGetSex SampleB idx], Ok ret).
Proof.
  unfold skipped, compare_body. intros Hs.
  apply andb_true_iff in Hs as [-> Hs]. simpl. now rewrite Hs.
Qed.

Lemma compare_body_result idx ret :
  snd (compare_body a b idx ret) =
  if skipped a b idx then Ok ret
  else match getDataRange (chromosome a idx) with
       | Ok _ => match getDataRange (chromosome b idx) with
                 | Ok _ => Ok ret
                 | Raise f => Raise f
                 end
       | Raise f => Raise f
       end.
Proof.
  unfold skipped, compare_body.
  destruct (idx =? SEX_CHROMOSOME_IDX); simpl.
  - destruct (negb _ || _); simpl; [reflexivity|].
    destruct (getDataRange (chromosome a idx)) as [[? ?]|]; simpl; [|reflexivity].
    destruct (getDataRange (chromosome b idx)) as [[? ?]|]; reflexivity.
  - destruct (getDataRange (chromosome a idx)) as [[? ?]|]; simpl; [|reflexivity].
    destruct (getDataRange (chromosome b idx)) as [[? ?]|]; reflexivity.
Qed.

Lemma compare_body_trace idx ret e :
  In e (fst (compare_body a b idx ret)) ->
  event_idx e = idx /\ (is_trim e = true -> skipped a b idx = false).
Proof.
  unfold skipped, compare_body.
  destruct (idx =? SEX_CHROMOSOME_IDX); simpl.
  - destruct (negb _ || _); simpl.
    + intros [<-|[<-|[<-|[<-|[]]]]]; simpl; split; auto; discriminate.
    + destruct (getDataRange (chromosome a idx)) as [[? ?]|]; simpl.
      * destruct (getDataRange (chromosome b idx)) as [[? ?]|]; simpl;
          intros Hin; repeat (destruct Hin as [<-|Hin]; [simpl; auto|]);
          destruct Hin.
      * intros Hin; repeat (destruct Hin as [<-|Hin]; [simpl; auto|]);
          destruct Hin.
  - destruct (getDataRange (chromosome a idx)) as [[? ?]|]; simpl.
    + destruct (getDataRange (chromosome b idx)) as [[? ?]|]; simpl;
        intros Hin; repeat (destruct Hin as [<-|Hin]; [simpl; auto|]);
        destruct Hin.
    + intros Hin; repeat (destruct Hin as [<-|Hin]; [simpl; auto|]);
        destruct Hin.
Qed.

(** Nothing is ever appended to [ret], and the loop throws nothing of its
    own: it ends with [ret] or with a read past a chunk. *)
Lemma compare_body_outcome idx ret :
  snd (compare_body a b idx ret) = Ok ret \/
  exists i, snd (compare_body a b idx ret) = Raise (OutOfBounds i).
Proof.
  rewrite compare_body_result. destruct (skipped a b idx); [auto|].
  destruct (getDataRange (chromosome a idx)) as [?|f] eqn:Ea.
  - destruct (getDataRange (chromosome b idx)) as [?|f] eqn:Eb; [auto|].
    apply getDataRange_fault in Eb as (i & -> & _). eauto.
  - apply getDataRange_fault in Ea as (i & -> & _). eauto.
Qed.

Lemma compare_loop_outcome n : forall idx ret,
  snd (compare_loop a b n idx ret) = Ok ret \/
  exists i, snd (compare_loop a b n idx ret) = Raise (OutOfBounds i).
Proof.
  induction n as [|n IH]; intros idx ret; cbn [compare_loop]; [auto|].
  rewrite snd_tbind.
  destruct (compare_body_outcome idx ret) as [-> | [i ->]]; eauto.
Qed.

Lemma compare_loop_returns n : forall idx ret,
  (forall j, idx <= j < idx + n ->
             snd (compare_body a b j ret) = Ok ret) ->
  snd (compare_loop a b n idx ret) = Ok ret.
Proof.
  induction n as [|n IH]; intros idx ret Hbody; cbn [compare_loop];
    [reflexivity|].
  rewrite snd_tbind, Hbody by lia. apply IH. intros j Hj. apply Hbody. lia.
Qed.

Lemma compare_loop_trace n : forall idx ret e,
  In e (fst (compare_loop a b n idx ret)) ->
  exists j, idx <= j < idx + n /\ In e (fst (compare_body a b j ret)).
Proof.
  induction n as [|n IH]; intros idx ret e; cbn [compare_loop];
    [intros []|].
  rewrite fst_tbind, in_app_iff. intros [Hin|Hin].
  - exists idx. split; [lia | assumption].
  - destruct (compare_body_outcome idx ret) as [E | [i E]];
      rewrite E in Hin; [|destruct Hin].
    apply IH in Hin as (j & Hj & Hin). exists j. split; [lia | assumption].
Qed.

Lemma compare_valid :
  chromosomes a = NUM_CHROMOSOMES -> chromosomes b = NUM_CHROMOSOMES ->
  compare a b = compare_loop a b 23 0 [].
Proof.
  intros Ha Hb. unfold compare. now rewrite Ha, Hb.
Qed.

Lemma compare_invalid :
  chromosomes a <> NUM_CHROMOSOMES \/ chromosomes b <> NUM_CHROMOSOMES ->
  compare a b = ([], Raise InvalidInput).
Proof.
  intros Hab. unfold compare.
  destruct (N.eqb_spec (chromosomes a) NUM_CHROMOSOMES);
    destruct (N.eqb_spec (chromosomes b) NUM_CHROMOSOMES);
    simpl; try reflexivity.
  destruct Hab; contradiction.
Qed.

(** No difference is ever reported. *)
Lemma compare_reports_nothing (l : list Difference) :
  snd (compare a b) = Ok l -> l = [].
Proof.
  unfold compare.
  destruct (negb _ || negb _); [discriminate|].
  destruct (compare_loop_outcome (N.to_nat NUM_CHROMOSOMES) 0 [])
    as [-> | [i ->]]; congruence.
Qed.

(** When every trim stays within its chunk, [compare] returns, and returns
    the empty list. *)
Lemma compare_returns_empty :
  chromosomes a = NUM_CHROMOSOMES -> chromosomes b = NUM_CHROMOSOMES ->
  (forall idx, idx < 23 ->
     first_chunk_whole (chromosome a idx) /\
     first_chunk_whole (chromosome b idx)) ->
  snd (compare a b) = Ok [].
Proof.
  intros Ha Hb Hwhole. rewrite compare_valid by assumption.
  apply compare_loop_returns. intros j Hj.
  rewrite compare_body_result. destruct (skipped a b j); [reflexivity|].
  destruct (Hwhole j) as [Hwa Hwb]; [lia|].
  apply getDataRange_total in Hwa as (? & ? & ->).
  apply getDataRange_total in Hwb as (? & ? & ->). reflexivity.
Qed.

(** C7. [compare] fails with InvalidInput exactly when one of the persons
    reports a chromosome count other than 23; the failure comes with an
    empty log, before any stream has been obtained, classified or read; with
    23 and 23 no InvalidInput is raised. *)
Theorem compare_invalid_input :
  (snd (compare a b) = Raise InvalidInput <->
   chromosomes a <> 23%N \/ chromosomes b <> 23%N) /\
  (snd (compare a b) = Raise InvalidInput -> fst (compare a b) = []) /\
  (chromosomes a = 23%N -> chromosomes b = 23%N ->
   snd (compare a b) <> Raise InvalidInput).
Proof.
  assert (Hvalid : chromosomes a = 23%N -> chromosomes b = 23%N ->
                   snd (compare a b) <> Raise InvalidInput).
  { intros Ha Hb. rewrite compare_valid by assumption.
    destruct (compare_loop_outcome 23 0 []) as [-> | [i ->]]; discriminate. }
  assert (Hcases : (chromosomes a <> 23%N \/ chromosomes b <> 23%N) \/
                   (chromosomes a = 23%N /\ chromosomes b = 23%N)).
  { destruct (N.eq_dec (chromosomes a) 23); destruct (N.eq_dec (chromosomes b) 23);
      auto. }
  split; [|split].
  - split.
    + intros Hr. destruct Hcases as [Hbad | [Ha Hb]]; [assumption|].
      now apply Hvalid in Hr.
    + intros Hbad. now rewrite compare_invalid.
  - intros Hr. destruct Hcases as [Hbad | [Ha Hb]].
    + now rewrite compare_invalid.
    + now apply Hvalid in Hr.
  - exact Hvalid.
Qed.

(** C8. For valid persons whose sex classifications differ, or one of which
    is MAX (Unknown): chromosome 22 is never trimmed, a list returned by
    [compare] holds no Difference with chromosome index 22, and [compare]
    does return a list as soon as the other 22 chromosomes are read whole,
    whatever chromosome 22 holds and however it is chunked. *)
Theorem compare_skips_sex_chromosome :
  chromosomes a = 23%N -> chromosomes b = 23%N ->
  (getSex (chromosome a SEX_CHROMOSOME_IDX)
     <> getSex (chromosome b SEX_CHROMOSOME_IDX) \/
   getSex (chromosome a SEX_CHROMOSOME_IDX) = MAX \/
   getSex (chromosome b SEX_CHROMOSOME_IDX) = MAX) ->
  (forall who, ~ In (EvGetDataRange who 22) (fst (compare a b))) /\
  (forall l d, snd (compare a b) = Ok l -> In d l -> chromosome_idx d <> 22) /\
  ((forall idx, idx < 22 ->
      first_chunk_whole (chromosome a idx) /\
      first_chunk_whole (chromosome b idx)) ->
   snd (compare a b) = Ok []).
Proof.
  intros Ha Hb Hsex.
  assert (Hskip : skipped a b 22 = true).
  { unfold skipped, SEX_CHROMOSOME_IDX in *. simpl.
    destruct (getSex (chromosome a 22)), (getSex (chromosome b 22));
      simpl; try reflexivity;
      destruct Hsex as [Hne | [Hm | Hm]]; congruence. }
  split; [|split].
  - intros who Hin. rewrite compare_valid in Hin by assumption.
    apply compare_loop_trace in Hin as (j & _ & Hin).
    apply compare_body_trace in Hin as [Hj Htrim]. simpl in Hj. subst j.
    specialize (Htrim eq_refl). congruence.
  - intros l d Hr Hin. apply compare_reports_nothing in Hr. subst l.
    destruct Hin.
  - intros Hwhole. rewrite compare_valid by assumption.
    apply compare_loop_returns. intros j Hj.
    rewrite compare_body_result.
    destruct (Nat.eq_dec j 22) as [-> | Hne]; [now rewrite Hskip|].
    destruct (skipped a b j); [reflexivity|].
    destruct (Hwhole j) as [Hwa Hwb]; [lia|].
    apply getDataRange_total in Hwa as (? & ? & ->).
    apply getDataRange_total in Hwb as (? & ? & ->). reflexivity.
Qed.
End CompareFacts.

Lemma compare_invalid_input_witness :
  snd (compare (uniform_person 22 small_chunk_data 1)
               (uniform_person 23 small_chunk_data 1)) = Raise InvalidInput /\
  fst (compare (uniform_person 23 small_chunk_data 1)
               (uniform_person 24 small_chunk_data 1)) = [] /\
  snd (compare (uniform_person 23 telomere_like_data 128)
               (uniform_person 23 partial_at_end_data 128)) <> Raise InvalidInput.
Proof.
  pose proof (compare_invalid_input (uniform_person 22 small_chunk_data 1)
                                    (uniform_person 23 small_chunk_data 1))
    as ([_ Hbad] & _).
  pose proof (compare_invalid_input (uniform_person 23 small_chunk_data 1)
                                    (uniform_person 24 small_chunk_data 1))
    as ([_ Hbad'] & Hlog & _).
  pose proof (compare_invalid_input (uniform_person 23 telomere_like_data 128)
                                    (uniform_person 23 partial_at_end_data 128))
    as (_ & _ & Hvalid).
  refine (conj (Hbad _) (conj (Hlog (Hbad' _)) (Hvalid _ _))).
  - left. simpl. discriminate.
  - right. simpl. discriminate.
  - reflexivity.
  - reflexivity.
Defined.

Lemma compare_skips_sex_chromosome_witness :
  ((forall who, ~ In (EvGetDataRange who 22)
                     (fst (compare (sized_person 39000000) (sized_person 14250000)))) /\
   snd (compare (sized_person 39000000) (sized_person 14250000)) = Ok []) /\
  ((forall who, ~ In (EvGetDataRange who 22)
                     (fst (compare narrow_sex_person narrow_sex_person))) /\
   snd (compare narrow_sex_person narrow_sex_person) = Ok []).
Proof.
  split.
  - destruct (compare_skips_sex_chromosome
                (sized_person 39000000) (sized_person 14250000))
      as (Hlog & _ & Hret).
    + reflexivity.
    + reflexivity.
    + left. vm_compute. discriminate.
    + split; [exact Hlog|]. apply Hret. intros idx Hidx.
      unfold first_chunk_whole. simpl.
      destruct (Nat.eqb_spec idx SEX_CHROMOSOME_IDX) as [->|_];
        [unfold SEX_CHROMOSOME_IDX in Hidx; lia|].
      vm_compute. split; lia.
  - destruct (compare_skips_sex_chromosome narrow_sex_person narrow_sex_person)
      as (Hlog & _ & Hret).
    + reflexivity.
    + reflexivity.
    + right. left. reflexivity.
    + split; [exact Hlog|]. apply Hret. intros idx Hidx.
      unfold first_chunk_whole. simpl.
      destruct (Nat.eqb_spec idx SEX_CHROMOSOME_IDX) as [->|_];
        [unfold SEX_CHROMOSOME_IDX in Hidx; lia|].
      vm_compute. split; lia.
Defined.

(** C10. Two persons of 23 chromosomes TTAGGGCC each, served one storage unit
    at a time: the first trim of chromosome 0 reads index 6 of a 4-base chunk,
    and [compare] does not get as far as returning its empty list. *)
Theorem compare_small_chunk_fault :
  chromosomes (uniform_person 23 telomere_at_start_data 1) = 23%N /\
  compare (uniform_person 23 telomere_at_start_data 1)
          (uniform_person 23 telomere_at_start_data 1)
  = ([EvChromosome SampleA 0; EvChromosome SampleB 0; EvGetDataRange SampleA 0],
     Raise (OutOfBounds 6)).
Proof. split; reflexivity. Qed.

(** ** Trimming whole periods *)

Lemma periods_length (k : nat) : length (periods k) = 6 * k.
Proof. induction k as [|k IH]; simpl; lia. Qed.

Lemma unpack_all_length (data : list packed) :
  length (unpack_all data) = 4 * length data.
Proof.
  unfold unpack_all.
  induction data as [|[b0 b1 b2 b3] data IH];
    cbn [flat_map unpack app length]; lia.
Qed.

Lemma buffer_at_app_r (pre l : list base) (k : nat) (x : base) :
  nth_error l k = Some x -> buffer_at (pre ++ l) (k + length pre) = Ok x.
Proof.
  intros Hk. apply buffer_at_Ok.
  rewrite nth_error_app2 by lia.
  now replace (k + length pre - length pre) with k by lia.
Qed.

Lemma front_phase_unroll (buffer : list base) :
  front_phase buffer 6 =
  if front_match buffer 0 6 then Some 0
  else if front_match buffer 1 6 then Some 1
  else if front_match buffer 2 6 then Some 2
  else if front_match buffer 3 6 then Some 3
  else if front_match buffer 4 6 then Some 4
  else if front_match buffer 5 6 then Some 5
  else None.
Proof. reflexivity. Qed.

Lemma back_phase_unroll (buffer : list base) (data_end : nat) :
  back_phase buffer data_end 6 =
  (m0 <- back_match buffer data_end 0 6 ;; if m0 : bool then Ok (Some 0) else
   m1 <- back_match buffer data_end 1 6 ;; if m1 : bool then Ok (Some 1) else
   m2 <- back_match buffer data_end 2 6 ;; if m2 : bool then Ok (Some 2) else
   m3 <- back_match buffer data_end 3 6 ;; if m3 : bool then Ok (Some 3) else
   m4 <- back_match buffer data_end 4 6 ;; if m4 : bool then Ok (Some 4) else
   m5 <- back_match buffer data_end 5 6 ;; if m5 : bool then Ok (Some 5) else
   Ok None)%result.
Proof. reflexivity. Qed.

Lemma same_bases_false (l : list base) (t : nat) :
  ~ is_rotation l -> t < 6 -> same_bases l (rotation t) = false.
Proof.
  intros Hnot Ht. unfold same_bases.
  destruct (list_eq_dec base_eq_dec l (rotation t)) as [E|_]; [|reflexivity].
  exfalso. apply Hnot. exists t. auto.
Qed.

(** The six comparisons at the front decide whether the head is the pattern
    read from phase [t_idx]. *)
Lemma front_match_spec (c0 c1 c2 c3 c4 c5 : base) (rest : list base) (t_idx : nat) :
  t_idx < 6 ->
  front_match (c0 :: c1 :: c2 :: c3 :: c4 :: c5 :: rest) t_idx 6
  = same_bases [c0; c1; c2; c3; c4; c5] (rotation t_idx).
Proof.
  intros Ht. unfold same_bases.
  do 6 (destruct t_idx as [|t_idx]; [
    destruct (list_eq_dec base_eq_dec _ _) as [E|E];
    [ injection E as -> -> -> -> -> ->; reflexivity
    | cbn in *; decide_bases; congruence ] |]).
  lia.
Qed.

Section PeriodScans.
Variable buffer : list base.

(** The six comparisons at the back decide whether the six bases before
    [data_end], read forwards, are the pattern from phase [t_idx + 1]. *)
Lemma back_match_spec (data_end : nat) (c0 c1 c2 c3 c4 c5 : base) (t_idx : nat) :
  buffer_at buffer (data_end - 1 - 5) = Ok c0 ->
  buffer_at buffer (data_end - 1 - 4) = Ok c1 ->
  buffer_at buffer (data_end - 1 - 3) = Ok c2 ->
  buffer_at buffer (data_end - 1 - 2) = Ok c3 ->
  buffer_at buffer (data_end - 1 - 1) = Ok c4 ->
  buffer_at buffer (data_end - 1 - 0) = Ok c5 ->
  t_idx < 6 ->
  back_match buffer data_end t_idx 6
  = Ok (same_bases [c0; c1; c2; c3; c4; c5] (rotation ((t_idx + 1) mod 6))).
Proof.
  intros H0 H1 H2 H3 H4 H5 Ht. unfold same_bases.
  cbn [back_match Nat.sub].
  rewrite H0, H1, H2, H3, H4, H5. cbn [rbind].
  do 6 (destruct t_idx as [|t_idx]; [
    destruct (list_eq_dec base_eq_dec _ _) as [E|E];
    [ injection E as -> -> -> -> -> ->; reflexivity
    | cbn in *; decide_bases; congruence ] |]).
  lia.
Qed.

Lemma forward_scan_period (n p : nat) :
  buffer_at buffer p = Ok T ->
  buffer_at buffer (1 + p) = Ok T ->
  buffer_at buffer (2 + p) = Ok A ->
  buffer_at buffer (3 + p) = Ok G ->
  buffer_at buffer (4 + p) = Ok G ->
  buffer_at buffer (5 + p) = Ok G ->
  forward_scan buffer (6 + n) p 0 = forward_scan buffer n (6 + p) 0.
Proof.
  intros H0 H1 H2 H3 H4 H5. cbn in *.
  rewrite H0; cbn. rewrite H1; cbn. rewrite H2; cbn.
  rewrite H3; cbn. rewrite H4; cbn. rewrite H5; cbn. reflexivity.
Qed.

Lemma forward_scan_stop (n p i : nat) (x : base) :
  buffer_at buffer p = Ok x -> x <> telomere_at i ->
  forward_scan buffer n p i = Ok (p, i).
Proof.
  intros Hx Hne. destruct n as [|n]; [reflexivity|].
  cbn [forward_scan]. rewrite Hx. cbn [rbind].
  now rewrite base_eqb_neq.
Qed.

Lemma backward_scan_period (n e : nat) :
  6 <= e ->
  buffer_at buffer (e - 1) = Ok G ->
  buffer_at buffer (e - 2) = Ok G ->
  buffer_at buffer (e - 3) = Ok G ->
  buffer_at buffer (e - 4) = Ok A ->
  buffer_at buffer (e - 5) = Ok T ->
  buffer_at buffer (e - 6) = Ok T ->
  backward_scan buffer (6 + n) e 5 = backward_scan buffer n (e - 6) 5.
Proof.
  intros He H1 H2 H3 H4 H5 H6.
  replace (e - 2) with (e - 1 - 1) in H2 by lia.
  replace (e - 3) with (e - 1 - 1 - 1) in H3 by lia.
  replace (e - 4) with (e - 1 - 1 - 1 - 1) in H4 by lia.
  replace (e - 5) with (e - 1 - 1 - 1 - 1 - 1) in H5 by lia.
  replace (e - 6) with (e - 1 - 1 - 1 - 1 - 1 - 1) in * by lia.
  cbn [backward_scan Nat.add].
  rewrite H1; cbn. rewrite H2; cbn. rewrite H3; cbn.
  rewrite H4; cbn. rewrite H5; cbn. rewrite H6; cbn. reflexivity.
Qed.

Lemma backward_scan_stop (n e i : nat) (x : base) :
  buffer_at buffer (e - 1) = Ok x -> x <> telomere_at i ->
  backward_scan buffer n e i = Ok (e, i).
Proof.
  intros Hx Hne. destruct n as [|n]; [reflexivity|].
  cbn [backward_scan]. rewrite Hx. cbn [rbind].
  now rewrite base_eqb_neq.
Qed.
End PeriodScans.

Lemma periods_snoc (k : nat) : periods (S k) = periods k ++ TELOMERE_SEQ.
Proof.
  induction k as [|k IH]; [reflexivity|].
  change (periods (S (S k))) with (TELOMERE_SEQ ++ periods (S k)).
  rewrite IH at 1. now rewrite app_assoc.
Qed.

Lemma forward_scan_periods (j : nat) : forall (pre rest : list base) (n : nat),
  forward_scan (pre ++ periods j ++ rest) (6 * j + n) (length pre) 0
  = forward_scan (pre ++ periods j ++ rest) n (6 * j + length pre) 0.
Proof.
  induction j as [|j IH]; intros pre rest n; [reflexivity|].
  replace (6 * S j + n) with (6 + (6 * j + n)) by lia.
  rewrite forward_scan_period;
    [ | apply (buffer_at_app_r pre (periods (S j) ++ rest) 0); reflexivity
      | apply (buffer_at_app_r pre (periods (S j) ++ rest) 1); reflexivity
      | apply (buffer_at_app_r pre (periods (S j) ++ rest) 2); reflexivity
      | apply (buffer_at_app_r pre (periods (S j) ++ rest) 3); reflexivity
      | apply (buffer_at_app_r pre (periods (S j) ++ rest) 4); reflexivity
      | apply (buffer_at_app_r pre (periods (S j) ++ rest) 5); reflexivity ].
  change (periods (S j)) with (TELOMERE_SEQ ++ periods j).
  rewrite <- (app_assoc TELOMERE_SEQ), (app_assoc pre TELOMERE_SEQ).
  replace (6 + length pre) with (length (pre ++ TELOMERE_SEQ))
    by (rewrite length_app; simpl; lia).
  rewrite IH. f_equal. rewrite length_app. simpl. lia.
Qed.

Lemma backward_scan_periods (j : nat) : forall (pre rest : list base) (n : nat),
  backward_scan (pre ++ periods j ++ rest) (6 * j + n) (length pre + 6 * j) 5
  = backward_scan (pre ++ periods j ++ rest) n (length pre) 5.
Proof.
  induction j as [|j IH]; intros pre rest n.
  - simpl. now rewrite Nat.add_0_r.
  - rewrite periods_snoc, <- (app_assoc (periods j)).
    replace (6 * S j + n) with (6 + (6 * j + n)) by lia.
    rewrite backward_scan_period; [| lia | ..].
    + replace (length pre + 6 * S j - 6) with (length pre + 6 * j) by lia.
      apply IH.
    + replace (length pre + 6 * S j - 1) with (5 + length (pre ++ periods j))
        by (rewrite length_app, periods_length; lia).
      rewrite (app_assoc pre). now apply buffer_at_app_r.
    + replace (length pre + 6 * S j - 2) with (4 + length (pre ++ periods j))
        by (rewrite length_app, periods_length; lia).
      rewrite (app_assoc pre). now apply buffer_at_app_r.
    + replace (length pre + 6 * S j - 3) with (3 + length (pre ++ periods j))
        by (rewrite length_app, periods_length; lia).
      rewrite (app_assoc pre). now apply buffer_at_app_r.
    + replace (length pre + 6 * S j - 4) with (2 + length (pre ++ periods j))
        by (rewrite length_app, periods_length; lia).
      rewrite (app_assoc pre). now apply buffer_at_app_r.
    + replace (length pre + 6 * S j - 5) with (1 + length (pre ++ periods j))
        by (rewrite length_app, periods_length; lia).
      rewrite (app_assoc pre). now apply buffer_at_app_r.
    + replace (length pre + 6 * S j - 6) with (0 + length (pre ++ periods j))
        by (rewrite length_app, periods_length; lia).
      rewrite (app_assoc pre). now apply buffer_at_app_r.
Qed.

Lemma last_is_snoc (x y : base) (d : list base) :
  last_is x (d ++ [y]) = base_eqb y x.
Proof. unfold last_is. now rewrite rev_app_distr. Qed.

Lemma lastn_app {X} (pre l : list X) : lastn (length l) (pre ++ l) = l.
Proof.
  unfold lastn. rewrite length_app.
  replace (length pre + length l - length l) with (length pre) by lia.
  rewrite skipn_app, skipn_all, Nat.sub_diag. reflexivity.
Qed.

Lemma last_six (s : list base) :
  6 <= length s ->
  exists front c0 c1 c2 c3 c4 c5, s = front ++ [c0; c1; c2; c3; c4; c5].
Proof.
  intros Hlen. rewrite <- (firstn_skipn (length s - 6) s).
  pose proof (length_skipn (length s - 6) s) as Hk.
  destruct (skipn (length s - 6) s) as [|c0 [|c1 [|c2 [|c3 [|c4 [|c5 [|c6 l]]]]]]];
    simpl in Hk; try lia.
  now exists (firstn (length s - 6) s), c0, c1, c2, c3, c4, c5.
Qed.

Lemma front_phase_spec (c0 c1 c2 c3 c4 c5 : base) (rest : list base) :
  front_phase (c0 :: c1 :: c2 :: c3 :: c4 :: c5 :: rest) 6 =
  let head := [c0; c1; c2; c3; c4; c5] in
  if same_bases head (rotation 0) then Some 0
  else if same_bases head (rotation 1) then Some 1
  else if same_bases head (rotation 2) then Some 2
  else if same_bases head (rotation 3) then Some 3
  else if same_bases head (rotation 4) then Some 4
  else if same_bases head (rotation 5) then Some 5
  else None.
Proof.
  rewrite front_phase_unroll. now rewrite !front_match_spec by lia.
Qed.

Lemma back_phase_spec (front : list base) (c0 c1 c2 c3 c4 c5 : base) :
  back_phase (front ++ [c0; c1; c2; c3; c4; c5])
             (length (front ++ [c0; c1; c2; c3; c4; c5])) 6 =
  let tail := [c0; c1; c2; c3; c4; c5] in
  Ok (if same_bases tail (rotation 1) then Some 0
      else if same_bases tail (rotation 2) then Some 1
      else if same_bases tail (rotation 3) then Some 2
      else if same_bases tail (rotation 4) then Some 3
      else if same_bases tail (rotation 5) then Some 4
      else if same_bases tail (rotation 0) then Some 5
      else None).
Proof.
  set (l6 := [c0; c1; c2; c3; c4; c5]).
  assert (Hread : forall k x, nth_error l6 k = Some x ->
            buffer_at (front ++ l6) (length (front ++ l6) - 1 - (5 - k)) = Ok x).
  { intros k x Hk.
    assert (k < 6) by (apply (nth_error_Some l6 k); congruence).
    replace (length (front ++ l6) - 1 - (5 - k)) with (k + length front)
      by (rewrite length_app; change (length l6) with 6; lia).
    now apply buffer_at_app_r. }
  rewrite back_phase_unroll.
  rewrite !(back_match_spec _ _ c0 c1 c2 c3 c4 c5)
    by (first [lia | apply (Hread 0); reflexivity | apply (Hread 1); reflexivity
              | apply (Hread 2); reflexivity | apply (Hread 3); reflexivity
              | apply (Hread 4); reflexivity | apply (Hread 5); reflexivity]).
  cbn [rbind].
  change ((0 + 1) mod 6) with 1. change ((1 + 1) mod 6) with 2.
  change ((2 + 1) mod 6) with 3. change ((3 + 1) mod 6) with 4.
  change ((4 + 1) mod 6) with 5. change ((5 + 1) mod 6) with 0.
  cbv zeta. fold l6.
  repeat (destruct (same_bases l6 _); [reflexivity|]). reflexivity.
Qed.

Section WholePeriods.
Variables (K M : nat) (d : list base).

Hypothesis d_nonempty : d <> [].
Hypothesis d_head : head_is T d = false.
Hypothesis d_last_G : M <> 0 -> last_is G d = false.
Hypothesis d_last_T : M = 0 -> last_is T d = false.
Hypothesis front_clear :
  K = 0 -> ~ is_rotation (firstn 6 (periods K ++ d ++ periods M)).
Hypothesis back_clear :
  M = 0 -> ~ is_rotation (lastn 6 (periods K ++ d ++ periods M)).

Lemma sequence_length :
  length (periods K ++ d ++ periods M) = 6 * K + length d + 6 * M.
Proof using.
  clear. rewrite !length_app, !periods_length. lia.
Qed.

(** From the very start the forward scan runs through the [K] periods and
    stops on the first base of the interior, in phase 0. *)
Lemma forward_scan_whole :
  forward_scan (periods K ++ d ++ periods M)
               (length (periods K ++ d ++ periods M)) 0 0
  = Ok (6 * K, 0).
Proof using d_nonempty d_head.
  clear d_last_G d_last_T front_clear back_clear.
  rewrite sequence_length.
  destruct d as [|x d'] eqn:Ed; [contradiction|]. simpl in d_head.
  replace (6 * K + length (x :: d') + 6 * M)
    with (6 * K + (length (x :: d') + 6 * M)) by lia.
  pose proof (forward_scan_periods K [] ((x :: d') ++ periods M)
                                   (length (x :: d') + 6 * M)) as Hrun.
  cbn [app] in Hrun. change (length (@nil base)) with 0 in Hrun.
  rewrite Nat.add_0_r in Hrun. cbn [app]. rewrite Hrun.
  apply forward_scan_stop with (x := x).
  - replace (6 * K) with (0 + length (periods K))
      by (rewrite periods_length; lia).
    now apply buffer_at_app_r.
  - intros ->. discriminate.
Qed.

(** After the search for the phase at the front the forward scan ends at
    [6 * K], in phase 0. *)
Lemma front_result :
  6 <= length (periods K ++ d ++ periods M) ->
  forall t0 s0,
    match front_phase (periods K ++ d ++ periods M) 6 with
    | Some t_idx => (t_idx, 6)
    | None => (0, 0)
    end = (t0, s0) ->
    forward_scan (periods K ++ d ++ periods M)
                 (length (periods K ++ d ++ periods M) - s0) s0 t0
    = Ok (6 * K, 0).
Proof using d_nonempty d_head front_clear.
  clear d_last_G d_last_T back_clear.
  intros Hlen t0 s0 Hphase. rewrite <- forward_scan_whole.
  destruct K as [|K'].
  - specialize (front_clear eq_refl).
    destruct (periods 0 ++ d ++ periods M)
      as [|c0 [|c1 [|c2 [|c3 [|c4 [|c5 rest]]]]]] eqn:Es;
      simpl in Hlen; try lia.
    rewrite front_phase_spec in Hphase. cbv zeta in Hphase.
    simpl firstn in front_clear.
    rewrite !same_bases_false in Hphase by (assumption || lia).
    injection Hphase as <- <-. now rewrite Nat.sub_0_r.
  - change (periods (S K') ++ d ++ periods M)
      with (T :: T :: A :: G :: G :: G :: periods K' ++ d ++ periods M) in *.
    rewrite front_phase_spec in Hphase. cbv zeta in Hphase.
    change (same_bases [T; T; A; G; G; G] (rotation 0)) with true in Hphase.
    injection Hphase as <- <-.
    set (s := T :: T :: A :: G :: G :: G :: periods K' ++ d ++ periods M) in *.
    replace (length s) with (6 + (length s - 6)) at 2 by lia.
    symmetry. apply forward_scan_period; reflexivity.
Qed.

(** The search for the phase at the back. *)
Lemma back_result :
  6 <= length (periods K ++ d ++ periods M) ->
  back_phase (periods K ++ d ++ periods M)
             (length (periods K ++ d ++ periods M)) 6
  = Ok (match M with 0 => None | S _ => Some 5 end).
Proof using back_clear.
  clear d_nonempty d_head d_last_G d_last_T front_clear.
  intros Hlen. destruct M as [|M'].
  - specialize (back_clear eq_refl).
    destruct (last_six _ Hlen) as (front & c0 & c1 & c2 & c3 & c4 & c5 & Es).
    rewrite Es in *.
    change 6 with (length [c0; c1; c2; c3; c4; c5]) in back_clear at 1.
    rewrite lastn_app in back_clear.
    rewrite back_phase_spec. cbv zeta.
    now rewrite !same_bases_false by (assumption || lia).
  - rewrite periods_snoc, !app_assoc. unfold TELOMERE_SEQ.
    rewrite back_phase_spec. reflexivity.
Qed.

(** From the end of the interior the backward scan does not move when the
    last base of the interior is not the one its phase expects. *)
Lemma backward_scan_interior (n t : nat) :
  last_is (telomere_at t) d = false ->
  backward_scan (periods K ++ d ++ periods M) n (6 * K + length d) t
  = Ok (6 * K + length d, t).
Proof using d_nonempty.
  clear d_head d_last_G d_last_T front_clear back_clear.
  intros Hlast.
  destruct (exists_last d_nonempty) as (d' & y & Ed).
  rewrite Ed, last_is_snoc in Hlast.
  apply backward_scan_stop with (x := y).
  - rewrite Ed, <- app_assoc, app_assoc.
    replace (6 * K + length (d' ++ [y]) - 1) with (0 + length (periods K ++ d'))
      by (rewrite !length_app, periods_length; simpl; lia).
    now apply buffer_at_app_r.
  - intros ->. now rewrite base_eqb_refl in Hlast.
Qed.

Lemma trim_buffer_periods :
  6 <= length (periods K ++ d ++ periods M) ->
  trim_buffer (periods K ++ d ++ periods M)
              (length (periods K ++ d ++ periods M))
  = Ok (6 * K, length (periods K ++ d ++ periods M) - 6 * M).
Proof using All.
  intros Hlen. unfold trim_buffer.
  destruct (match front_phase (periods K ++ d ++ periods M) 6 with
            | Some t_idx => (t_idx, 6)
            | None => (0, 0)
            end) as [t0 s0] eqn:Hphase.
  rewrite (front_result Hlen _ _ Hphase). cbn [rbind].
  pose proof sequence_length as HL.
  pose proof (back_result Hlen) as Hback.
  pose proof backward_scan_interior as Hstop.
  destruct (Nat.ltb_spec (length (periods K ++ d ++ periods M)) (6 * K + 6))
    as [Hshort | Hlong].
  - f_equal. f_equal. lia.
  - rewrite Hback. cbn [rbind].
    destruct M as [|M'].
    + rewrite HL.
      replace (6 * K + length d + 6 * 0) with (6 * K + length d) by lia.
      rewrite Hstop by (apply d_last_T; reflexivity). cbn [rbind].
      f_equal. f_equal. lia.
    + replace (length (periods K ++ d ++ periods (S M')) - 6 - 6 * K)
        with (6 * M' + length d) by lia.
      replace (length (periods K ++ d ++ periods (S M')) - 6)
        with (length (periods K ++ d) + 6 * M')
        by (rewrite HL, length_app, periods_length; lia).
      specialize (Hstop (length d) 5 (d_last_G (Nat.neq_succ_0 M'))).
      rewrite periods_snoc in Hstop |- *. rewrite !app_assoc in Hstop |- *.
      rewrite <- (app_assoc _ (periods M')) in Hstop |- *.
      rewrite backward_scan_periods.
      rewrite length_app, periods_length.
      rewrite Hstop. cbn [rbind].
      f_equal. f_equal. rewrite !length_app, !periods_length. simpl. lia.
Qed.
End WholePeriods.

(** ** Streams of the test-suite read through one chunk *)

Section WholeChunk.
Variable h : fake_stream.
Hypothesis fits : (size h * packed_size_value < SIZE_MAX1)%N.

Lemma fake_helix_len : N.to_nat (helix_len h) = length (stream_bases h).
Proof using fits.
  rewrite helix_len_exact by exact fits.
  unfold stream_bases. rewrite unpack_all_length.
  simpl size. unfold packed_size_value. lia.
Qed.

Lemma fake_first_chunk :
  first_chunk_whole h -> fst (read (seek 0%N h)) = stream_bases h.
Proof using fits.
  unfold first_chunk_whole. rewrite fake_helix_len.
  unfold stream_bases. simpl. rewrite !unpack_all_length, length_firstn.
  intros Hle. rewrite firstn_all2 by lia. reflexivity.
Qed.

(** C3, amended.  The sequence is [K] whole periods, an interior, [M] whole
    periods, and is read through one chunk.  If the interior is not empty,
    starts with a base other than T and ends with a base other than G (when
    M > 0) or other than T (when M = 0), and if at an end without a period
    (K = 0, M = 0) the six bases at that end of the sequence are no rotation
    of the pattern, then the range is [6K, length - 6M). *)
Theorem getDataRange_whole_periods (K M : nat) (d : list base) :
  first_chunk_whole h ->
  stream_bases h = periods K ++ d ++ periods M ->
  d <> [] ->
  head_is T d = false ->
  (M <> 0 -> last_is G d = false) ->
  (M = 0 -> last_is T d = false) ->
  (K = 0 -> ~ is_rotation (firstn 6 (stream_bases h))) ->
  (M = 0 -> ~ is_rotation (lastn 6 (stream_bases h))) ->
  getDataRange h = Ok (6 * K, length (stream_bases h) - 6 * M).
Proof using fits.
  intros Hwhole Hs Hne Hhead HlastG HlastT Hfront Hback.
  pose proof fake_helix_len as Hlen.
  destruct (Nat.lt_ge_cases (length (stream_bases h)) 6) as [Hshort | Hlong].
  - rewrite getDataRange_short by lia. rewrite Hlen.
    pose proof (sequence_length K M d) as HL. rewrite <- Hs in HL.
    f_equal. f_equal; lia.
  - rewrite getDataRange_long by lia.
    rewrite fake_first_chunk, Hlen by assumption.
    rewrite Hs in *. now apply trim_buffer_periods.
Qed.
End WholeChunk.

Lemma getDataRange_whole_periods_witness :
  getDataRange (new_fake_stream both_ends_data 128) = Ok (6, 10) /\
  getDataRange (new_fake_stream telomeres_at_start_data 128) = Ok (12, 16) /\
  getDataRange (new_fake_stream no_telomeres_data 128) = Ok (0, 8).
Proof.
  repeat apply conj.
  - apply (getDataRange_whole_periods
             (new_fake_stream both_ends_data 128) eq_refl 1 1 [C; C; C; C]);
      try reflexivity; try discriminate.
    unfold first_chunk_whole. vm_compute. lia.
  - apply (getDataRange_whole_periods
             (new_fake_stream telomeres_at_start_data 128) eq_refl 2 0 [C; C; C; C]);
      try reflexivity; try discriminate.
    + unfold first_chunk_whole. vm_compute. lia.
    + intros _. apply not_rotation. reflexivity.
  - apply (getDataRange_whole_periods
             (new_fake_stream no_telomeres_data 128) eq_refl 0 0
             [C; C; C; C; C; C; C; C]);
      try reflexivity; try discriminate.
    + unfold first_chunk_whole. vm_compute. lia.
    + intros _. apply not_rotation. reflexivity.
    + intros _. apply not_rotation. reflexivity.
Defined.

(** ** What is trimmed is the pattern *)

Lemma same_bases_true (l1 l2 : list base) : same_bases l1 l2 = true -> l1 = l2.
Proof.
  unfold same_bases. now destruct (list_eq_dec base_eq_dec l1 l2).
Qed.

Lemma same_bases_intro (l1 l2 : list base) : l1 = l2 -> same_bases l1 l2 = true.
Proof.
  intros ->. unfold same_bases.
  now destruct (list_eq_dec base_eq_dec l2 l2).
Qed.

Lemma rotation_nth (t k : nat) :
  k < 6 -> nth_error (rotation t) k = Some (telomere_at ((t + k) mod 6)).
Proof.
  intros Hk. unfold rotation.
  do 6 (destruct k as [|k]; [reflexivity|]). lia.
Qed.

Lemma rotation_length (t : nat) : length (rotation t) = 6.
Proof. reflexivity. Qed.

(** Six bases are a rotation exactly when they follow the pattern from some
    phase. *)
Lemma run_is_rotation (l : list base) (t : nat) :
  length l = 6 ->
  (forall k, k < 6 -> nth_error l k = Some (telomere_at ((t + k) mod 6))) ->
  l = rotation t.
Proof.
  intros Hlen Hrun. apply nth_error_ext. intros k.
  destruct (Nat.lt_ge_cases k 6) as [Hk|Hk].
  - now rewrite Hrun, rotation_nth.
  - transitivity (@None base); [|symmetry];
      apply nth_error_None; rewrite ?rotation_length; lia.
Qed.

Section RunFacts.
Variable buffer : list base.

Lemma forward_scan_run n : forall p i p' i',
  i < 6 ->
  forward_scan buffer n p i = Ok (p', i') ->
  i' = (i + (p' - p)) mod 6 /\
  (forall q, p <= q < p' ->
             nth_error buffer q = Some (telomere_at ((i + (q - p)) mod 6))) /\
  (p' < p + n -> nth_error buffer p' <> Some (telomere_at i')).
Proof.
  induction n as [|n IH]; intros p i p' i' Hi Hs; cbn [forward_scan] in Hs.
  - injection Hs as <- <-. repeat split; first [lia | mod_lia].
  - destruct (buffer_at buffer p) as [x|] eqn:E; cbn [rbind] in Hs;
      [|discriminate]. apply buffer_at_Ok in E.
    destruct (base_eqb_spec x (telomere_at i)) as [-> | Hne].
    + pose proof Hs as Hb. apply forward_scan_bounds in Hb.
      apply IH in Hs as (Hi' & Hrun & Hstop); [|mod_lia].
      split; [|split].
      * rewrite Hi'. mod_lia.
      * intros q Hq. destruct (Nat.eq_dec q p) as [-> | Hqp].
        -- rewrite E. f_equal. f_equal. mod_lia.
        -- rewrite Hrun by lia. f_equal. f_equal. mod_lia.
      * intros Hlt. apply Hstop. lia.
    + injection Hs as <- <-. split; [mod_lia|]. split; [intros; lia|].
      intros _. rewrite E. congruence.
Qed.

Lemma backward_scan_run n : forall e i e' i',
  i < 6 -> n <= e ->
  backward_scan buffer n e i = Ok (e', i') ->
  i' = (i + 5 * (e - e')) mod 6 /\
  (forall q, e' <= q < e ->
             nth_error buffer q = Some (telomere_at ((i + 5 * (e - 1 - q)) mod 6))) /\
  (e - n < e' -> nth_error buffer (e' - 1) <> Some (telomere_at i')).
Proof.
  induction n as [|n IH]; intros e i e' i' Hi Hn Hs; cbn [backward_scan] in Hs.
  - injection Hs as <- <-. repeat split; first [lia | mod_lia].
  - destruct (buffer_at buffer (e - 1)) as [x|] eqn:E; cbn [rbind] in Hs;
      [|discriminate]. apply buffer_at_Ok in E.
    destruct (base_eqb_spec x (telomere_at i)) as [-> | Hne].
    + pose proof Hs as Hb. apply backward_scan_bounds in Hb.
      apply IH in Hs as (Hi' & Hrun & Hstop); [|mod_lia|lia].
      split; [|split].
      * rewrite Hi'. mod_lia.
      * intros q Hq. destruct (Nat.eq_dec q (e - 1)) as [-> | Hqe].
        -- rewrite E. f_equal. f_equal. mod_lia.
        -- rewrite Hrun by lia. f_equal. f_equal. mod_lia.
      * intros Hlt. apply Hstop. lia.
    + injection Hs as <- <-. split; [mod_lia|]. split; [intros; lia|].
      intros _. rewrite E. congruence.
Qed.
End RunFacts.

Section TrimAnatomy.
Variable buffer : list base.
Variable data_end : nat.

(** What the search at the front found, read off the first six bases. *)
Lemma front_phase_head :
  6 <= length buffer ->
  match front_phase buffer 6 with
  | Some t => t < 6 /\ firstn 6 buffer = rotation t
  | None => ~ is_rotation (firstn 6 buffer)
  end.
Proof.
  intros Hlen.
  destruct buffer as [|c0 [|c1 [|c2 [|c3 [|c4 [|c5 rest]]]]]];
    simpl in Hlen; try lia.
  rewrite front_phase_spec. cbv zeta. cbn [firstn].
  repeat (match goal with
          | |- context [same_bases ?l (rotation ?t)] =>
              destruct (same_bases l (rotation t)) eqn:?
          end;
          [ split; [lia | now apply same_bases_true] |]).
  intros (t & Ht & E).
  apply same_bases_intro in E.
  do 6 (destruct t as [|t]; [congruence|]).
  lia.
Qed.

(** What the search at the back found, read off the six bases before
    [data_end]. *)
Lemma back_phase_tail :
  6 <= data_end <= length buffer ->
  exists found,
    back_phase buffer data_end 6 = Ok found /\
    match found with
    | Some t => t < 6 /\
                firstn 6 (skipn (data_end - 6) buffer) = rotation ((t + 1) mod 6)
    | None => ~ is_rotation (firstn 6 (skipn (data_end - 6) buffer))
    end.
Proof.
  intros Hlen.
  assert (Hread : forall k x,
            nth_error (firstn 6 (skipn (data_end - 6) buffer)) k = Some x ->
            buffer_at buffer (data_end - 1 - (5 - k)) = Ok x).
  { intros k x Hk. apply buffer_at_Ok.
    rewrite nth_error_firstn in Hk.
    destruct (Nat.ltb_spec k 6); [|discriminate].
    rewrite nth_error_skipn in Hk. rewrite <- Hk. f_equal. lia. }
  assert (H6 : length (firstn 6 (skipn (data_end - 6) buffer)) = 6)
    by (rewrite length_firstn, length_skipn; lia).
  destruct (firstn 6 (skipn (data_end - 6) buffer))
    as [|c0 [|c1 [|c2 [|c3 [|c4 [|c5 [|c6 rest]]]]]]];
    simpl in H6; try lia.
  rewrite back_phase_unroll.
  rewrite !(back_match_spec _ _ c0 c1 c2 c3 c4 c5)
    by (first [lia | apply (Hread 0); reflexivity | apply (Hread 1); reflexivity
              | apply (Hread 2); reflexivity | apply (Hread 3); reflexivity
              | apply (Hread 4); reflexivity | apply (Hread 5); reflexivity]).
  cbn [rbind].
  change ((0 + 1) mod 6) with 1. change ((1 + 1) mod 6) with 2.
  change ((2 + 1) mod 6) with 3. change ((3 + 1) mod 6) with 4.
  change ((4 + 1) mod 6) with 5. change ((5 + 1) mod 6) with 0.
  repeat (match goal with
          | |- context [same_bases ?l (rotation ?t)] =>
              destruct (same_bases l (rotation t)) eqn:?
          end;
          [ eexists; split; [reflexivity|];
            split; [lia | now apply same_bases_true] |]).
  eexists. split; [reflexivity|].
  intros (t & Ht & E).
  apply same_bases_intro in E.
  do 6 (destruct t as [|t]; [congruence|]).
  lia.
Qed.

(** The stages of [trim_buffer] behind a returned range. *)
Lemma trim_buffer_anatomy (s e : nat) :
  trim_buffer buffer data_end = Ok (s, e) ->
  exists t0 s0 t1,
    (front_phase buffer 6 = Some t0 /\ s0 = 6 \/
     front_phase buffer 6 = None /\ t0 = 0 /\ s0 = 0) /\
    forward_scan buffer (data_end - s0) s0 t0 = Ok (s, t1) /\
    (data_end < s + 6 /\ e = data_end \/
     s + 6 <= data_end /\
     exists t2 e0 t3,
       (back_phase buffer data_end 6 = Ok (Some t2) /\ e0 = data_end - 6 \/
        back_phase buffer data_end 6 = Ok None /\ t2 = t1 /\ e0 = data_end) /\
       backward_scan buffer (e0 - s) e0 t2 = Ok (e, t3)).
Proof.
  unfold trim_buffer. intros Hr.
  destruct (front_phase buffer 6) as [t|] eqn:Efront.
  - destruct (forward_scan buffer (data_end - 6) 6 t) as [[s1 t1]|] eqn:Ef;
      cbn [rbind] in Hr; [|discriminate].
    exists t, 6, t1.
    destruct (Nat.ltb_spec data_end (s1 + 6)).
    + injection Hr as <- <-. auto 6.
    + destruct (back_phase buffer data_end 6) as [[t2|]|] eqn:Eb;
        cbn [rbind] in Hr; [| |discriminate].
      * destruct (backward_scan buffer (data_end - 6 - s1) (data_end - 6) t2)
          as [[e1 t3]|] eqn:Ew; cbn [rbind] in Hr; [|discriminate].
        injection Hr as <- <-.
        split; [auto|]. split; [auto|]. right. split; [lia|].
        exists t2, (data_end - 6), t3. auto.
      * destruct (backward_scan buffer (data_end - s1) data_end t1)
          as [[e1 t3]|] eqn:Ew; cbn [rbind] in Hr; [|discriminate].
        injection Hr as <- <-.
        split; [auto|]. split; [auto|]. right. split; [lia|].
        exists t1, data_end, t3. auto.
  - destruct (forward_scan buffer (data_end - 0) 0 0) as [[s1 t1]|] eqn:Ef;
      cbn [rbind] in Hr; [|discriminate].
    exists 0, 0, t1.
    destruct (Nat.ltb_spec data_end (s1 + 6)).
    + injection Hr as <- <-. auto 7.
    + destruct (back_phase buffer data_end 6) as [[t2|]|] eqn:Eb;
        cbn [rbind] in Hr; [| |discriminate].
      * destruct (backward_scan buffer (data_end - 6 - s1) (data_end - 6) t2)
          as [[e1 t3]|] eqn:Ew; cbn [rbind] in Hr; [|discriminate].
        injection Hr as <- <-.
        split; [auto|]. split; [auto|]. right. split; [lia|].
        exists t2, (data_end - 6), t3. auto.
      * destruct (backward_scan buffer (data_end - s1) data_end t1)
          as [[e1 t3]|] eqn:Ew; cbn [rbind] in Hr; [|discriminate].
        injection Hr as <- <-.
        split; [auto|]. split; [auto|]. right. split; [lia|].
        exists t1, data_end, t3. auto.
Qed.
End TrimAnatomy.

(** Phases at an index, counted from the end and counted from the start. *)
Lemma phase_from_end (t d q : nat) :
  q < d ->
  (t + 5 * (d - 1 - q)) mod 6 = ((t + 1 + 5 * d) mod 6 + q) mod 6.
Proof. intros. mod_lia. Qed.

Lemma phase_before_period (t d q : nat) :
  6 <= d -> q < d - 6 ->
  (t + 5 * (d - 6 - 1 - q)) mod 6 = ((t + 1 + 5 * d) mod 6 + q) mod 6.
Proof. intros. mod_lia. Qed.

Lemma phase_in_period (t d q : nat) :
  6 <= d -> d - 6 <= q < d ->
  ((t + 1) mod 6 + (q - (d - 6))) mod 6 = ((t + 1 + 5 * d) mod 6 + q) mod 6.
Proof. intros. mod_lia. Qed.

Lemma phase_of_tail (t d k : nat) :
  6 <= d -> k < 6 ->
  (t + 5 * (d - 1 - (d - 6 + k))) mod 6 = ((t + 1) mod 6 + k) mod 6.
Proof. intros. mod_lia. Qed.

Section TrimmedRuns.
Variable buffer : list base.
Variables data_end s e : nat.
Hypothesis whole : 6 <= data_end <= length buffer.
Hypothesis returned : trim_buffer buffer data_end = Ok (s, e).

Lemma head_nth (q : nat) :
  q < 6 -> nth_error buffer q = nth_error (firstn 6 buffer) q.
Proof using.
  clear. intros Hq. rewrite nth_error_firstn.
  now destruct (Nat.ltb_spec q 6); [|lia].
Qed.

Lemma tail_nth (q : nat) :
  data_end - 6 <= q < data_end ->
  nth_error buffer q
  = nth_error (firstn 6 (skipn (data_end - 6) buffer)) (q - (data_end - 6)).
Proof using.
  clear. intros Hq. rewrite nth_error_firstn, nth_error_skipn.
  destruct (Nat.ltb_spec (q - (data_end - 6)) 6); [|lia].
  f_equal. lia.
Qed.

(** The front: everything before [s] follows the pattern from one phase,
    the base at [s] breaks it; a full period or more is trimmed exactly when
    the first six bases are a rotation of the pattern. *)
Lemma trim_buffer_front_run :
  exists t, t < 6 /\
    cyclic_run buffer t 0 s /\
    (s < data_end -> nth_error buffer s <> Some (telomere_at ((t + s) mod 6))) /\
    (is_rotation (firstn 6 buffer) -> 6 <= s /\ firstn 6 buffer = rotation t) /\
    (~ is_rotation (firstn 6 buffer) -> s <= 5).
Proof using whole returned.
  destruct (trim_buffer_anatomy _ _ _ _ returned)
    as (t0 & s0 & t1 & Hfront & Hf & _).
  pose proof (front_phase_head buffer) as Hhead.
  pose proof Hf as Hb. apply forward_scan_bounds in Hb.
  destruct Hfront as [[Efront ->] | (Efront & -> & ->)];
    rewrite Efront in Hhead; specialize (Hhead ltac:(lia)).
  - destruct Hhead as [Ht0 Hrot].
    apply forward_scan_run in Hf as (Ht1 & Hrun & Hstop); [|assumption].
    exists t0. split; [assumption|]. split; [|split; [|split]].
    + intros q Hq. destruct (Nat.lt_ge_cases q 6) as [Hq6|Hq6].
      * rewrite head_nth, Hrot by assumption. now apply rotation_nth.
      * rewrite Hrun by lia. f_equal. f_equal. mod_lia.
    + intros Hlt. replace ((t0 + s) mod 6) with t1 by (rewrite Ht1; mod_lia).
      apply Hstop. lia.
    + intros _. split; [lia | assumption].
    + intros Hnot. exfalso. apply Hnot. exists t0. auto.
  - apply forward_scan_run in Hf as (Ht1 & Hrun & Hstop); [|lia].
    exists 0. split; [lia|]. split; [|split; [|split]].
    + intros q Hq. rewrite Hrun by lia. f_equal. f_equal. mod_lia.
    + intros Hlt. replace ((0 + s) mod 6) with t1 by (rewrite Ht1; mod_lia).
      apply Hstop. lia.
    + intros Hrot. contradiction.
    + intros _. destruct (Nat.lt_ge_cases s 6) as [Hs|Hs]; [lia|].
      exfalso. apply Hhead. exists 0. split; [lia|].
      apply run_is_rotation.
      * rewrite length_firstn. lia.
      * intros k Hk. rewrite <- head_nth, Hrun by lia.
        f_equal. f_equal. mod_lia.
Qed.

(** The back: everything from [e] to the end follows the pattern from one
    phase; without a rotation in the last six bases at most five bases are
    trimmed, with one (and room for the search) at least a period. *)
Lemma trim_buffer_back_run :
  exists t, t < 6 /\
    cyclic_run buffer t e data_end /\
    (~ is_rotation (firstn 6 (skipn (data_end - 6) buffer)) ->
     data_end - e <= 5) /\
    (is_rotation (firstn 6 (skipn (data_end - 6) buffer)) ->
     s + 6 <= data_end -> e + 6 <= data_end).
Proof using whole returned.
  destruct (trim_buffer_anatomy _ _ _ _ returned)
    as (t0 & s0 & t1 & Hfront & Hf & Hback).
  assert (Ht1 : t1 < 6).
  { pose proof (front_phase_head buffer) as Hhead.
    destruct Hfront as [[Efront ->] | (Efront & -> & ->)];
      rewrite Efront in Hhead; specialize (Hhead ltac:(lia)).
    - apply forward_scan_run in Hf as (-> & _);
        [apply Nat.mod_upper_bound; lia | tauto].
    - apply forward_scan_run in Hf as (-> & _);
        [apply Nat.mod_upper_bound; lia | lia]. }
  apply forward_scan_bounds in Hf.
  destruct Hback as [[Hshort ->] | (Hlong & t2 & e0 & t3 & Hphase & Hw)].
  - exists 0. split; [lia|]. split; [intros q Hq; lia|]. split; intros; lia.
  - destruct (back_phase_tail buffer data_end whole) as (found & Efound & Htail).
    pose proof Hw as Hb. apply backward_scan_bounds in Hb.
    destruct Hphase as [[Eb ->] | (Eb & -> & ->)];
      rewrite Eb in Efound; injection Efound as <-.
    + destruct Htail as [Ht2 Hrot].
      apply backward_scan_run in Hw as (_ & Hrun & _); [|assumption|lia].
      exists ((t2 + 1 + 5 * data_end) mod 6). split; [apply Nat.mod_upper_bound; lia|].
      split; [|split].
      * intros q Hq. destruct (Nat.lt_ge_cases q (data_end - 6)) as [Hq6|Hq6].
        -- rewrite Hrun by lia. f_equal. f_equal.
           apply phase_before_period; lia.
        -- rewrite tail_nth by lia. rewrite Hrot, rotation_nth by lia.
           f_equal. f_equal. apply phase_in_period; lia.
      * intros Hnot. exfalso. apply Hnot. exists ((t2 + 1) mod 6).
        split; [apply Nat.mod_upper_bound; lia | assumption].
      * intros _ _. lia.
    + apply backward_scan_run in Hw as (_ & Hrun & _); [|assumption|lia].
      exists ((t1 + 1 + 5 * data_end) mod 6). split; [apply Nat.mod_upper_bound; lia|].
      split; [|split].
      * intros q Hq. rewrite Hrun by lia. f_equal. f_equal.
        apply phase_from_end; lia.
      * intros _. destruct (Nat.le_gt_cases (data_end - e) 5) as [Hle|Hgt];
          [assumption|].
        exfalso. apply Htail. exists ((t1 + 1) mod 6). split; [apply Nat.mod_upper_bound; lia|].
        apply run_is_rotation.
        -- rewrite length_firstn, length_skipn. lia.
        -- intros k Hk.
           replace k with (data_end - 6 + k - (data_end - 6)) at 1 by lia.
           rewrite <- tail_nth, Hrun by lia. f_equal. f_equal.
           apply phase_of_tail; lia.
      * intros Hrot. contradiction.
Qed.
End TrimmedRuns.

Lemma rotation_inj (t t' : nat) :
  t < 6 -> t' < 6 -> rotation t = rotation t' -> t = t'.
Proof.
  intros Ht Ht' E.
  do 6 (destruct t as [|t];
        [do 6 (destruct t' as [|t']; [reflexivity || discriminate|]); lia|]).
  lia.
Qed.

Section TrimmedRegions.
Context {H : Type} `{HelixStream H}.
Variable helix : H.

(** X1. When the first chunk holds the whole sequence of at least six bases
    and a range [s, e) is returned, the bases before [s] are the pattern
    repeated without gaps from one phase and the base at [s], if there is
    one, is not the next base of that repetition; the bases from [e] to the
    end are the pattern repeated without gaps from one phase too. *)
Theorem getDataRange_trims_pattern_only (s e : nat) :
  let buffer := fst (read (seek 0%N helix)) in
  let data_end := N.to_nat (helix_len helix) in
  first_chunk_whole helix ->
  6 <= data_end ->
  getDataRange helix = Ok (s, e) ->
  (exists t, t < 6 /\ cyclic_run buffer t 0 s /\
     (s < data_end ->
      nth_error buffer s <> Some (telomere_at ((t + s) mod 6)))) /\
  (exists t, t < 6 /\ cyclic_run buffer t e data_end).
Proof.
  intros buffer data_end Hwhole H6 Hr.
  rewrite getDataRange_long in Hr by assumption.
  assert (Hb : 6 <= data_end <= length buffer) by (split; assumption).
  split.
  - destruct (trim_buffer_front_run _ _ _ _ Hb Hr) as (t & Ht & Hrun & Hstop & _).
    exists t. auto.
  - destruct (trim_buffer_back_run _ _ _ _ Hb Hr) as (t & Ht & Hrun & _).
    exists t. auto.
Qed.

(** X2. Under the same conditions: at least one whole period is trimmed at
    the front when the first six bases are a rotation of the pattern and at
    most five bases otherwise; at the back at most five bases are trimmed
    when the last six bases are no rotation, and at least one whole period
    when they are one and six bases or more are left after the front. *)
Theorem getDataRange_trim_extent (s e : nat) :
  let buffer := fst (read (seek 0%N helix)) in
  let data_end := N.to_nat (helix_len helix) in
  first_chunk_whole helix ->
  6 <= data_end ->
  getDataRange helix = Ok (s, e) ->
  (is_rotation (firstn 6 buffer) -> 6 <= s) /\
  (~ is_rotation (firstn 6 buffer) -> s <= 5) /\
  (~ is_rotation (firstn 6 (skipn (data_end - 6) buffer)) -> data_end - e <= 5) /\
  (is_rotation (firstn 6 (skipn (data_end - 6) buffer)) ->
   s + 6 <= data_end -> e + 6 <= data_end).
Proof.
  intros buffer data_end Hwhole H6 Hr.
  rewrite getDataRange_long in Hr by assumption.
  assert (Hb : 6 <= data_end <= length buffer) by (split; assumption).
  destruct (trim_buffer_front_run _ _ _ _ Hb Hr) as (t & _ & _ & _ & Hrot & Hnot).
  destruct (trim_buffer_back_run _ _ _ _ Hb Hr) as (t' & _ & _ & Hnot' & Hrot').
  repeat split; try assumption.
  intros Hhead. now apply Hrot.
Qed.

(** X3. When the first chunk holds the whole sequence of at least six bases
    and the sequence is nothing but the pattern repeated without gaps, from
    any phase, the forward scan takes it all: the range returned is empty
    and sits at the end. *)
Theorem getDataRange_all_telomere (t : nat) :
  let buffer := fst (read (seek 0%N helix)) in
  let data_end := N.to_nat (helix_len helix) in
  first_chunk_whole helix ->
  6 <= data_end ->
  t < 6 ->
  cyclic_run buffer t 0 data_end ->
  getDataRange helix = Ok (data_end, data_end).
Proof.
  intros buffer data_end Hwhole H6 Ht Hall.
  rewrite getDataRange_long by assumption.
  assert (Hb : 6 <= data_end <= length buffer) by (split; assumption).
  destruct (trim_buffer_total buffer data_end Hb) as (s & e & Hr).
  fold buffer data_end. rewrite Hr.
  pose proof (trim_buffer_bounds _ _ _ _ H6 Hr) as Hse.
  destruct (trim_buffer_front_run _ _ _ _ Hb Hr)
    as (t' & Ht' & _ & Hstop & Hrot & _).
  assert (Hhead : firstn 6 buffer = rotation t).
  { apply run_is_rotation.
    - rewrite length_firstn. lia.
    - intros k Hk. rewrite <- head_nth by assumption. apply Hall. lia. }
  destruct Hrot as [Hs Hhead']; [exists t; auto|].
  assert (t' = t) as -> by (apply rotation_inj; congruence).
  assert (s = data_end) as ->.
  { destruct (Nat.eq_dec s data_end) as [|Hne]; [assumption|].
    exfalso. apply Hstop; [lia|]. apply Hall. lia. }
  assert (e = data_end) as -> by lia.
  reflexivity.
Qed.
End TrimmedRegions.

Lemma getDataRange_trims_pattern_only_witness :
  (exists t, t < 6 /\
     cyclic_run (stream_bases (new_fake_stream partial_both_ends_data 128)) t 0 20 /\
     (20 < 36 ->
      nth_error (stream_bases (new_fake_stream partial_both_ends_data 128)) 20
      <> Some (telomere_at ((t + 20) mod 6)))) /\
  (exists t, t < 6 /\
     cyclic_run (stream_bases (new_fake_stream partial_both_ends_data 128)) t 28 36).
Proof.
  assert (Hw : first_chunk_whole (new_fake_stream partial_both_ends_data 128))
    by (unfold first_chunk_whole; vm_compute; lia).
  assert (H6 : 6 <= N.to_nat (helix_len (new_fake_stream partial_both_ends_data 128)))
    by (vm_compute; lia).
  exact (getDataRange_trims_pattern_only
           (new_fake_stream partial_both_ends_data 128) 20 28 Hw H6 eq_refl).
Defined.

Lemma getDataRange_trim_extent_witness :
  (is_rotation (firstn 6 (stream_bases (new_fake_stream partial_both_ends_data 128)))
   -> 6 <= 20) /\
  (~ is_rotation (firstn 6 (stream_bases (new_fake_stream partial_both_ends_data 128)))
   -> 20 <= 5) /\
  (~ is_rotation (firstn 6 (skipn (36 - 6)
       (stream_bases (new_fake_stream partial_both_ends_data 128))))
   -> 36 - 28 <= 5) /\
  (is_rotation (firstn 6 (skipn (36 - 6)
       (stream_bases (new_fake_stream partial_both_ends_data 128))))
   -> 20 + 6 <= 36 -> 28 + 6 <= 36).
Proof.
  assert (Hw : first_chunk_whole (new_fake_stream partial_both_ends_data 128))
    by (unfold first_chunk_whole; vm_compute; lia).
  assert (H6 : 6 <= N.to_nat (helix_len (new_fake_stream partial_both_ends_data 128)))
    by (vm_compute; lia).
  exact (getDataRange_trim_extent
           (new_fake_stream partial_both_ends_data 128) 20 28 Hw H6 eq_refl).
Defined.

Lemma getDataRange_all_telomere_witness :
  getDataRange (new_fake_stream two_periods_data 128) = Ok (12, 12).
Proof.
  assert (Hw : first_chunk_whole (new_fake_stream two_periods_data 128))
    by (unfold first_chunk_whole; vm_compute; lia).
  assert (H6 : 6 <= N.to_nat (helix_len (new_fake_stream two_periods_data 128)))
    by (vm_compute; lia).
  assert (Hall : cyclic_run (fst (read (seek 0%N (new_fake_stream two_periods_data 128))))
                            0 0 (N.to_nat (helix_len (new_fake_stream two_periods_data 128)))).
  { intros q [_ Hq]. change (q < 12) in Hq.
    do 12 (destruct q as [|q]; [reflexivity|]). lia. }
  exact (getDataRange_all_telomere
           (new_fake_stream two_periods_data 128) 0 Hw H6 (Nat.lt_0_succ 5) Hall).
Defined.

(** ** A longer first chunk *)

Section LongerChunk.
Variables pre ext : list base.

Lemma buffer_at_prefix (i : nat) (x : base) :
  buffer_at pre i = Ok x -> buffer_at (pre ++ ext) i = Ok x.
Proof.
  rewrite !buffer_at_Ok. intros Hx.
  rewrite nth_error_app1; [assumption|].
  apply nth_error_Some. congruence.
Qed.

Lemma forward_scan_prefix n : forall p i r,
  forward_scan pre n p i = Ok r -> forward_scan (pre ++ ext) n p i = Ok r.
Proof.
  induction n as [|n IH]; intros p i r Hs; cbn [forward_scan] in *;
    [assumption|].
  destruct (buffer_at pre p) as [x|] eqn:E; cbn [rbind] in Hs; [|discriminate].
  rewrite (buffer_at_prefix _ _ E). cbn [rbind].
  destruct (base_eqb x (telomere_at i)); auto.
Qed.

Lemma backward_scan_prefix n : forall e i r,
  backward_scan pre n e i = Ok r -> backward_scan (pre ++ ext) n e i = Ok r.
Proof.
  induction n as [|n IH]; intros e i r Hs; cbn [backward_scan] in *;
    [assumption|].
  destruct (buffer_at pre (e - 1)) as [x|] eqn:E; cbn [rbind] in Hs;
    [|discriminate].
  rewrite (buffer_at_prefix _ _ E). cbn [rbind].
  destruct (base_eqb x (telomere_at i)); auto.
Qed.

Lemma back_match_prefix data_end t_idx n : forall m,
  back_match pre data_end t_idx n = Ok m ->
  back_match (pre ++ ext) data_end t_idx n = Ok m.
Proof.
  induction n as [|n IH]; intros m Hs; cbn [back_match] in *; [assumption|].
  destruct (buffer_at pre (data_end - 1 - (6 - S n))) as [x|] eqn:E;
    cbn [rbind] in Hs; [|discriminate].
  rewrite (buffer_at_prefix _ _ E). cbn [rbind].
  destruct (base_eqb x _); auto.
Qed.

Lemma back_phase_prefix data_end n : forall found,
  back_phase pre data_end n = Ok found ->
  back_phase (pre ++ ext) data_end n = Ok found.
Proof.
  induction n as [|n IH]; intros found Hs; cbn [back_phase] in *; [assumption|].
  destruct (back_match pre data_end (6 - S n) 6) as [m|] eqn:E;
    cbn [rbind] in Hs; [|discriminate].
  rewrite (back_match_prefix _ _ _ _ E). cbn [rbind].
  destruct m; auto.
Qed.

Lemma front_match_long t_idx n :
  6 <= length pre ->
  front_match (pre ++ ext) t_idx n = front_match pre t_idx n.
Proof.
  intros Hlen. induction n as [|n IH]; cbn [front_match]; [reflexivity|].
  destruct (Nat.eq_dec (6 - S n) 6) as [E6|E6]; [lia|].
  destruct (Nat.ltb_spec (6 - S n) (length (pre ++ ext))) as [_|Hge];
    [|rewrite length_app in Hge; lia].
  destruct (Nat.ltb_spec (6 - S n) (length pre)) as [Hlt|Hge]; [|lia].
  rewrite app_nth1 by assumption. now rewrite IH.
Qed.

Lemma front_match_mismatch t_idx n :
  front_match pre t_idx n = false -> front_match (pre ++ ext) t_idx n = false.
Proof.
  induction n as [|n IH]; cbn [front_match]; [discriminate|].
  destruct (Nat.ltb_spec (6 - S n) (length pre)) as [Hlt|Hge]; [|discriminate].
  destruct (Nat.ltb_spec (6 - S n) (length (pre ++ ext))) as [_|Hge];
    [|rewrite length_app in Hge; lia].
  rewrite app_nth1 by assumption.
  destruct (base_eqb _ _); auto.
Qed.

Lemma front_phase_long n :
  6 <= length pre -> front_phase (pre ++ ext) n = front_phase pre n.
Proof.
  intros Hlen. induction n as [|n IH]; cbn [front_phase]; [reflexivity|].
  now rewrite front_match_long, IH.
Qed.

Lemma front_phase_unmatched n :
  front_phase pre n = None -> front_phase (pre ++ ext) n = None.
Proof.
  induction n as [|n IH]; cbn [front_phase]; [reflexivity|].
  destruct (front_match pre (6 - S n) 6) eqn:E; [discriminate|].
  rewrite (front_match_mismatch _ _ E). exact IH.
Qed.

(** A range returned from a chunk is the range returned from any chunk that
    extends it. *)
Lemma trim_buffer_prefix (data_end : nat) (r : nat * nat) :
  6 < data_end ->
  trim_buffer pre data_end = Ok r -> trim_buffer (pre ++ ext) data_end = Ok r.
Proof.
  intros H6 Hr.
  assert (Hfront : front_phase (pre ++ ext) 6 = front_phase pre 6).
  { destruct (Nat.le_gt_cases 6 (length pre)) as [Hlen|Hlen];
      [now apply front_phase_long|].
    destruct (front_phase pre 6) as [t|] eqn:E;
      [|now apply front_phase_unmatched].
    exfalso. unfold trim_buffer in Hr. rewrite E in Hr.
    destruct (data_end - 6) as [|n] eqn:En; [lia|].
    cbn [forward_scan] in Hr.
    destruct (buffer_at pre 6) as [x|] eqn:Ex; [|discriminate].
    apply buffer_at_Ok in Ex.
    assert (6 < length pre) by (apply nth_error_Some; congruence). lia. }
  unfold trim_buffer in *. rewrite Hfront.
  destruct (match front_phase pre 6 with
            | Some t_idx => (t_idx, 6)
            | None => (0, 0)
            end) as [t0 s0].
  destruct (forward_scan pre (data_end - s0) s0 t0) as [[s1 t1]|] eqn:Ef;
    cbn [rbind] in Hr; [|discriminate].
  rewrite (forward_scan_prefix _ _ _ _ Ef). cbn [rbind].
  destruct (data_end <? s1 + 6); [assumption|].
  destruct (back_phase pre data_end 6) as [found|] eqn:Eb;
    cbn [rbind] in Hr; [|discriminate].
  rewrite (back_phase_prefix _ _ _ Eb). cbn [rbind].
  destruct (match found with
            | Some t_idx => (t_idx, data_end - 6)
            | None => (t1, data_end)
            end) as [t2 e0].
  destruct (backward_scan pre (e0 - s1) e0 t2) as [[e1 t3]|] eqn:Ew;
    cbn [rbind] in Hr; [|discriminate].
  rewrite (backward_scan_prefix _ _ _ _ Ew). cbn [rbind]. assumption.
Qed.
End LongerChunk.

Lemma firstn_le_prefix {X} (c c' : nat) (l : list X) :
  c <= c' -> exists rest, firstn c' l = firstn c l ++ rest.
Proof.
  revert c' l. induction c as [|c IH]; intros c' l Hle.
  - exists (firstn c' l). reflexivity.
  - destruct c' as [|c']; [lia|]. destruct l as [|x l].
    + exists []. reflexivity.
    + destruct (IH c' l) as [rest E]; [lia|].
      exists rest. simpl. now rewrite E.
Qed.

Lemma helix_len_not_six {H} `{HelixStream H} (helix : H) :
  N.to_nat (helix_len helix) <> 6.
Proof.
  unfold helix_len, packed_size_value, SIZE_MAX1.
  generalize (size helix). intros m. mod_lia.
Qed.

(** X4. For the streams of the test-suite: a range returned through chunks
    of [c] storage units is returned unchanged through any larger chunk size;
    enlarging the chunk can only turn a read past the chunk into a range. *)
Theorem getDataRange_chunk_enlarged (data : list packed) (c c' : nat)
        (r : nat * nat) :
  c <= c' ->
  getDataRange (new_fake_stream data c) = Ok r ->
  getDataRange (new_fake_stream data c') = Ok r.
Proof.
  intros Hle Hr.
  assert (Hlen : helix_len (new_fake_stream data c')
                 = helix_len (new_fake_stream data c)) by reflexivity.
  pose proof (helix_len_not_six (new_fake_stream data c)) as Hnot.
  destruct (Nat.lt_ge_cases (N.to_nat (helix_len (new_fake_stream data c))) 6)
    as [Hshort|Hlong].
  - rewrite getDataRange_short in Hr by assumption.
    rewrite getDataRange_short by (rewrite Hlen; assumption).
    now rewrite Hlen.
  - rewrite getDataRange_long in Hr by assumption.
    rewrite getDataRange_long by (rewrite Hlen; assumption).
    rewrite Hlen. cbn [read seek fake_stream_stream fake_read fst] in *.
    cbn [fs_data fs_chunksize fs_offset new_fake_stream skipn N.to_nat] in *.
    destruct (firstn_le_prefix c c' data Hle) as [rest ->].
    unfold unpack_all in *. rewrite flat_map_app.
    apply trim_buffer_prefix; [lia | assumption].
Qed.

Lemma getDataRange_chunk_enlarged_witness :
  getDataRange (new_fake_stream short_interior_data 3) = Ok (7, 12).
Proof.
  apply (getDataRange_chunk_enlarged short_interior_data 2 3 (7, 12)).
  - lia.
  - reflexivity.
Defined.

(** ** Where a read past the chunk lands *)

Section FaultIndex.
Variable buffer : list base.





End FaultIndex.

Section FaultOfStream.
Context {H : Type} `{HelixStream H}.
Variable helix : H.

End FaultOfStream.


(** ** getSex, both directions *)

Section SexClassifierExact.
Context {H : Type} `{HelixStream H}.
Variable helix : H.

Local Open Scope N_scope.

(** X6. [getSex] classifies the length it computes, L = size() * 4 taken in
    the 64 bits of [size_t], that is the product modulo 2^64, which is the
    base length whenever that is below 2^64: it returns X exactly for L
    strictly between 124,800,000 and 195,000,000, Y exactly for L strictly
    between 45,600,000 and 71,250,000, and MAX exactly for the rest; no L is
    in both bands, so the order of the two tests decides nothing. *)
Theorem getSex_exactly :
  let L := (size helix * 4) mod 2 ^ 64 in
  (size helix * 4 < 2 ^ 64 -> L = size helix * 4) /\
  (getSex helix = X <-> 124800000 < L < 195000000) /\
  (getSex helix = Y <-> 45600000 < L < 71250000) /\
  (getSex helix = MAX <->
   ~ 124800000 < L < 195000000 /\ ~ 45600000 < L < 71250000) /\
  ~ (124800000 < L < 195000000 /\ 45600000 < L < 71250000).
Proof.
  intros L. change L with (helix_len helix).
  split; [|split; [|split; [|split]]].
  - apply helix_len_exact.
  - apply getSex_X_iff.
  - apply getSex_Y_iff.
  - rewrite getSex_MAX_iff. lia.
  - lia.
Qed.

(** X7. In storage units of four bases: for a stream of fewer than 2^62
    units, whose length in bases does not wrap, [getSex] returns X exactly
    when it has more than 31,200,000 and fewer than 48,750,000 units, and Y
    exactly when it has more than 11,400,000 and fewer than 17,812,500. *)
Theorem getSex_in_units :
  size helix < 2 ^ 62 ->
  (getSex helix = X <-> 31200000 < size helix < 48750000) /\
  (getSex helix = Y <-> 11400000 < size helix < 17812500).
Proof.
  intros Hsize.
  assert (Hlen : helix_len helix = size helix * 4).
  { apply helix_len_exact. unfold packed_size_value, SIZE_MAX1.
    change (2 ^ 64) with (2 ^ 62 * 4). lia. }
  rewrite getSex_X_iff, getSex_Y_iff, Hlen. lia.
Qed.
End SexClassifierExact.

Lemma getSex_in_units_witness :
  getSex {| m_size := 39000000 |} = X /\ getSex {| m_size := 14250000 |} = Y.
Proof.
  assert (H1 : (size {| m_size := 39000000 |} < 2 ^ 62)%N) by reflexivity.
  assert (H2 : (size {| m_size := 14250000 |} < 2 ^ 62)%N) by reflexivity.
  destruct (getSex_in_units {| m_size := 39000000 |} H1) as [[_ HX] _].
  destruct (getSex_in_units {| m_size := 14250000 |} H2) as [_ [_ HY]].
  refine (conj (HX _) (HY _)); split; reflexivity.
Defined.

(** ** The log of compare *)

Section CompareLog.
Context {P H : Type} `{Person P H}.
Variables a b : P.

Lemma skipped_elsewhere idx : idx <> SEX_CHROMOSOME_IDX -> skipped a b idx = false.
Proof.
  intros Hne. unfold skipped.
  now destruct (Nat.eqb_spec idx SEX_CHROMOSOME_IDX).
Qed.

Lemma compare_body_sex_events idx ret who i :
  In (EvGetSex who i) (fst (compare_body a b idx ret)) ->
  idx = SEX_CHROMOSOME_IDX.
Proof.
  unfold compare_body.
  destruct (Nat.eqb_spec idx SEX_CHROMOSOME_IDX) as [|Hne]; [auto|].
  simpl.
  destruct (getDataRange (chromosome a idx)) as [[? ?]|]; simpl.
  - destruct (getDataRange (chromosome b idx)) as [[? ?]|]; simpl;
      intros Hin; repeat (destruct Hin as [Hin|Hin]; [discriminate|]);
      destruct Hin.
  - intros Hin; repeat (destruct Hin as [Hin|Hin]; [discriminate|]);
      destruct Hin.
Qed.

Lemma compare_body_obtains idx ret :
  filter is_obtain (fst (compare_body a b idx ret))
  = [EvChromosome SampleA idx; EvChromosome SampleB idx].
Proof.
  unfold compare_body.
  destruct (idx =? SEX_CHROMOSOME_IDX); simpl.
  - destruct (negb _ || _); simpl; [reflexivity|].
    destruct (getDataRange (chromosome a idx)) as [[? ?]|]; simpl;
      [|reflexivity].
    destruct (getDataRange (chromosome b idx)) as [[? ?]|]; reflexivity.
  - destruct (getDataRange (chromosome a idx)) as [[? ?]|]; simpl;
      [|reflexivity].
    destruct (getDataRange (chromosome b idx)) as [[? ?]|]; reflexivity.
Qed.

Lemma compare_body_trims idx ret :
  skipped a b idx = false ->
  In (EvGetDataRange SampleA idx) (fst (compare_body a b idx ret)).
Proof.
  unfold skipped, compare_body.
  destruct (idx =? SEX_CHROMOSOME_IDX); simpl.
  - intros ->. simpl.
    destruct (getDataRange (chromosome a idx)) as [[? ?]|]; simpl; [|auto 6].
    destruct (getDataRange (chromosome b idx)) as [[? ?]|]; simpl; auto 6.
  - intros _.
    destruct (getDataRange (chromosome a idx)) as [[? ?]|]; simpl; [|auto].
    destruct (getDataRange (chromosome b idx)) as [[? ?]|]; simpl; auto.
Qed.

Lemma compare_loop_reaches n : forall idx j ret e,
  idx <= j < idx + n ->
  (forall k, idx <= k < j -> snd (compare_body a b k ret) = Ok ret) ->
  In e (fst (compare_body a b j ret)) ->
  In e (fst (compare_loop a b n idx ret)).
Proof.
  induction n as [|n IH]; intros idx j ret e Hj Hbefore Hin; [lia|].
  cbn [compare_loop]. rewrite fst_tbind, in_app_iff.
  destruct (Nat.eq_dec j idx) as [-> | Hne]; [auto|].
  right. rewrite Hbefore by lia.
  apply IH with (j := j); [lia | | assumption].
  intros k Hk. apply Hbefore. lia.
Qed.

Lemma compare_loop_last n : forall idx ret,
  (forall k, idx <= k < idx + n -> snd (compare_body a b k ret) = Ok ret) ->
  snd (compare_loop a b (S n) idx ret) = snd (compare_body a b (idx + n) ret).
Proof.
  induction n as [|n IH]; intros idx ret Hbefore.
  - cbn [compare_loop]. rewrite snd_tbind, Nat.add_0_r.
    destruct (compare_body_outcome a b idx ret) as [-> | [i ->]]; reflexivity.
  - change (compare_loop a b (S (S n)) idx ret)
      with (tbind (compare_body a b idx ret)
                  (fun ret' => compare_loop a b (S n) (S idx) ret')).
    rewrite snd_tbind, Hbefore by lia.
    rewrite IH by (intros k Hk; apply Hbefore; lia).
    now replace (S idx + n) with (idx + S n) by lia.
Qed.

Lemma compare_loop_obtains n : forall idx ret,
  exists k, k <= n /\
    filter is_obtain (fst (compare_loop a b n idx ret))
    = flat_map (fun i => [EvChromosome SampleA i; EvChromosome SampleB i])
               (seq idx k) /\
    (forall l, snd (compare_loop a b n idx ret) = Ok l -> k = n).
Proof.
  induction n as [|n IH]; intros idx ret.
  - exists 0. repeat split; auto.
  - cbn [compare_loop]. rewrite fst_tbind, snd_tbind, filter_app.
    rewrite compare_body_obtains.
    destruct (compare_body_outcome a b idx ret) as [-> | [i ->]].
    + destruct (IH (S idx) ret) as (k & Hk & Hobt & Hall).
      exists (S k). split; [lia|]. split.
      * rewrite Hobt. reflexivity.
      * intros l Hl. f_equal. eauto.
    + exists 1. split; [lia|]. split; [reflexivity | discriminate].
Qed.

(** X8. For valid persons whose first 22 chromosomes are trimmed without a
    read past a chunk: when the two sex chromosomes are classified alike and
    not MAX, they are trimmed like the others, person A's first, and what
    [compare] returns is the empty list if both trims return and the fault of
    the first failing trim otherwise. *)
Theorem compare_trims_same_sex :
  chromosomes a = 23%N -> chromosomes b = 23%N ->
  (forall idx, idx < 22 ->
     (exists r, getDataRange (chromosome a idx) = Ok r) /\
     (exists r, getDataRange (chromosome b idx) = Ok r)) ->
  getSex (chromosome a 22) = getSex (chromosome b 22) ->
  getSex (chromosome a 22) <> MAX ->
  In (EvGetDataRange SampleA 22) (fst (compare a b)) /\
  snd (compare a b) =
  match getDataRange (chromosome a 22) with
  | Ok _ => match getDataRange (chromosome b 22) with
            | Ok _ => Ok []
            | Raise f => Raise f
            end
  | Raise f => Raise f
  end.
Proof.
  intros Ha Hb Hfirst Hsame Hsex.
  assert (Hbefore : forall k, 0 <= k < 22 ->
                    snd (compare_body a b k []) = Ok []).
  { intros k Hk. rewrite compare_body_result.
    rewrite skipped_elsewhere by (unfold SEX_CHROMOSOME_IDX; lia).
    destruct (Hfirst k) as [[ra ->] [rb ->]]; [lia | reflexivity]. }
  assert (Hskip : skipped a b 22 = false).
  { unfold skipped. simpl. rewrite <- Hsame.
    destruct (getSex (chromosome a 22)); simpl; congruence. }
  rewrite compare_valid by assumption. split.
  - apply compare_loop_reaches with (j := 22); [lia | assumption |].
    now apply compare_body_trims.
  - rewrite (compare_loop_last 22 0 []) by (intros k Hk; apply Hbefore; lia).
    simpl Nat.add. now rewrite compare_body_result, Hskip.
Qed.

(** X9. Whatever the persons: every stream [compare] obtains, classifies or
    trims has a chromosome index below 23, and [getSex] is applied to
    chromosome index 22 only. *)
Theorem compare_log_indices (e : event) :
  In e (fst (compare a b)) ->
  event_idx e < 23 /\
  (forall who idx, e = EvGetSex who idx -> idx = 22).
Proof.
  unfold compare.
  destruct (negb _ || negb _); [intros []|].
  intros Hin. apply compare_loop_trace in Hin as (j & Hj & Hin).
  split.
  - apply compare_body_trace in Hin as [-> _]. simpl in Hj. lia.
  - intros who idx ->. pose proof Hin as Hidx.
    apply compare_body_sex_events in Hin.
    apply compare_body_trace in Hidx as [Hidx _]. simpl in Hidx.
    unfold SEX_CHROMOSOME_IDX in Hin. congruence.
Qed.

(** X10. Whatever the persons: the streams [compare] obtains are those of the
    chromosome indices below some k <= 23, in ascending order, person A's
    before person B's, each once; when [compare] returns a list, k = 23. *)
Theorem compare_obtains_in_order :
  exists k, k <= 23 /\
    filter is_obtain (fst (compare a b)) = streams_in_order k /\
    (forall l, snd (compare a b) = Ok l -> k = 23).
Proof.
  unfold compare.
  destruct (negb _ || negb _).
  - exists 0. split; [lia|]. split; [reflexivity | discriminate].
  - apply compare_loop_obtains.
Qed.
End CompareLog.

Lemma compare_trims_same_sex_witness :
  In (EvGetDataRange SampleA 22)
     (fst (compare (sized_person 39000000) (sized_person 39000000))).
Proof.
  refine (proj1 (compare_trims_same_sex
                   (sized_person 39000000) (sized_person 39000000) _ _ _ _ _)).
  - reflexivity.
  - reflexivity.
  - intros idx Hidx.
    cbn [chromosome fake_person_person fp_chromosome sized_person].
    destruct (Nat.eqb_spec idx SEX_CHROMOSOME_IDX) as [->|_];
      [unfold SEX_CHROMOSOME_IDX in Hidx; lia|].
    split; exists (0, 0); reflexivity.
  - reflexivity.
  - vm_compute. discriminate.
Defined.

Lemma compare_log_indices_witness :
  event_idx (EvGetSex SampleA 22) < 23 /\
  (forall who idx, EvGetSex SampleA 22 = EvGetSex who idx -> idx = 22).
Proof.
  apply (compare_log_indices narrow_sex_person narrow_sex_person).
  vm_compute. repeat (first [left; reflexivity | right]).
Defined.

(** ** The text of a Difference *)

Module DifferenceTextFacts.
Import String Ascii DecimalString DifferenceText.
Local Open Scope string_scope.

Example print_Difference_sample :
  print_Difference "diff: " (new_Difference 3 10 20 11 25)
  = "diff: Chromosome 3 | first sample: [10, 20] second sample: [11, 25]".
Proof. reflexivity. Qed.

Lemma append_inj_l (p s1 s2 : string) : p ++ s1 = p ++ s2 -> s1 = s2.
Proof.
  induction p as [|c p IH]; simpl; [auto|]. intros [= E]. auto.
Qed.

Lemma string_of_uint_digits (d : Decimal.uint) :
  all_digits (NilEmpty.string_of_uint d) = true.
Proof. induction d; simpl; auto. Qed.

Lemma show_size_t_inj (n m : nat) : show_size_t n = show_size_t m -> n = m.
Proof.
  unfold show_size_t. intros E.
  apply (f_equal NilEmpty.uint_of_string) in E.
  rewrite !NilEmpty.usu in E. injection E as E.
  apply (f_equal Nat.of_uint) in E.
  now rewrite !DecimalNat.Unsigned.of_to in E.
Qed.

(** Two runs of digits, each followed by a character that is no digit, end
    at the same place when the texts are equal. *)
Lemma digits_then_separator (s1 : string) : forall s2 c1 c2 r1 r2,
  all_digits s1 = true -> all_digits s2 = true ->
  is_digit c1 = false -> is_digit c2 = false ->
  s1 ++ String c1 r1 = s2 ++ String c2 r2 ->
  s1 = s2 /\ String c1 r1 = String c2 r2.
Proof.
  induction s1 as [|x s1 IH]; intros [|y s2] c1 c2 r1 r2 H1 H2 Hc1 Hc2 E;
    simpl in *.
  - auto.
  - injection E as -> _. apply andb_prop in H2 as [H2 _]. congruence.
  - injection E as -> _. apply andb_prop in H1 as [H1 _]. congruence.
  - injection E as -> E.
    apply andb_prop in H1 as [_ H1]. apply andb_prop in H2 as [_ H2].
    destruct (IH _ _ _ _ _ H1 H2 Hc1 Hc2 E) as [-> ?]. auto.
Qed.

Lemma field_inj (n m : nat) (c1 c2 : ascii) (r1 r2 : string) :
  is_digit c1 = false -> is_digit c2 = false ->
  show_size_t n ++ String c1 r1 = show_size_t m ++ String c2 r2 ->
  n = m /\ r1 = r2.
Proof.
  intros Hc1 Hc2 E.
  apply digits_then_separator in E as [E1 E2];
    try apply string_of_uint_digits; try assumption.
  split; [now apply show_size_t_inj | congruence].
Qed.

(** X11. The text [operator<<] writes for a Difference determines the
    Difference: written to streams holding the same text, two records that
    give the same output have the same chromosome index and the same four
    subsection bounds. *)
Theorem print_Difference_injective (os : string) (d1 d2 : Difference) :
  print_Difference os d1 = print_Difference os d2 -> d1 = d2.
Proof.
  destruct d1 as [i1 [a1 a1'] [b1 b1']], d2 as [i2 [a2 a2'] [b2 b2']].
  unfold print_Difference. cbn [chromosome_idx person_a person_b fst snd].
  intros E. apply append_inj_l in E. apply (append_inj_l "Chromosome ") in E.
  apply field_inj in E as [-> E]; [|reflexivity..].
  apply (append_inj_l "| first sample: [") in E.
  apply field_inj in E as [-> E]; [|reflexivity..].
  apply (append_inj_l " ") in E.
  apply field_inj in E as [-> E]; [|reflexivity..].
  apply (append_inj_l " second sample: [") in E.
  apply field_inj in E as [-> E]; [|reflexivity..].
  apply (append_inj_l " ") in E.
  apply field_inj in E as [-> E]; [|reflexivity..].
  reflexivity.
Qed.

Lemma print_Difference_injective_witness :
  new_Difference 3 10 20 11 25 = mkDifference 3 (10, 20) (11, 25).
Proof.
  apply (print_Difference_injective "diff: "). reflexivity.
Defined.
End DifferenceTextFacts.

(** ** The interior is not read *)

Section Frame.
Variables B B' : list base.

Lemma buffer_at_agree (q : nat) :
  nth_error B' q = nth_error B q -> buffer_at B' q = buffer_at B q.
Proof. unfold buffer_at. now intros ->. Qed.

Lemma forward_scan_frame n : forall p i p' i',
  forward_scan B n p i = Ok (p', i') ->
  (forall q, p <= q <= p' -> q < p + n -> nth_error B' q = nth_error B q) ->
  forward_scan B' n p i = Ok (p', i').
Proof.
  induction n as [|n IH]; intros p i p' i' Hs Hagree; cbn [forward_scan] in *;
    [assumption|].
  pose proof (forward_scan_bounds B (S n) p i p' i') as Hb.
  cbn [forward_scan] in Hb. specialize (Hb Hs).
  rewrite buffer_at_agree by (apply Hagree; lia).
  destruct (buffer_at B p) as [x|]; cbn [rbind] in *; [|discriminate].
  destruct (base_eqb x (telomere_at i)); [|assumption].
  pose proof (forward_scan_bounds _ _ _ _ _ _ Hs) as Hb'.
  apply IH; [assumption|]. intros q Hq Hlt. apply Hagree; lia.
Qed.

Lemma backward_scan_frame n : forall e i e' i',
  n <= e ->
  backward_scan B n e i = Ok (e', i') ->
  (forall q, e' - 1 <= q < e -> e - n <= q -> nth_error B' q = nth_error B q) ->
  backward_scan B' n e i = Ok (e', i').
Proof.
  induction n as [|n IH]; intros e i e' i' Hn Hs Hagree;
    cbn [backward_scan] in *; [assumption|].
  pose proof (backward_scan_bounds B (S n) e i e' i') as Hb.
  cbn [backward_scan] in Hb. specialize (Hb Hs).
  rewrite buffer_at_agree by (apply Hagree; lia).
  destruct (buffer_at B (e - 1)) as [x|]; cbn [rbind] in *; [|discriminate].
  destruct (base_eqb x (telomere_at i)); [|assumption].
  pose proof (backward_scan_bounds _ _ _ _ _ _ Hs) as Hb'.
  apply IH; [lia | assumption |]. intros q Hq Hlt. apply Hagree; lia.
Qed.

Lemma back_match_frame data_end t_idx n :
  6 <= data_end ->
  (forall q, data_end - 6 <= q < data_end -> nth_error B' q = nth_error B q) ->
  back_match B' data_end t_idx n = back_match B data_end t_idx n.
Proof.
  intros H6 Hagree. induction n as [|n IH]; cbn [back_match]; [reflexivity|].
  rewrite buffer_at_agree by (apply Hagree; lia).
  destruct (buffer_at B _) as [x|]; cbn [rbind]; [|reflexivity].
  now rewrite IH.
Qed.

Lemma back_phase_frame data_end n :
  6 <= data_end ->
  (forall q, data_end - 6 <= q < data_end -> nth_error B' q = nth_error B q) ->
  back_phase B' data_end n = back_phase B data_end n.
Proof.
  intros H6 Hagree. induction n as [|n IH]; cbn [back_phase]; [reflexivity|].
  rewrite back_match_frame by assumption.
  destruct (back_match B data_end (6 - S n) 6) as [m|]; cbn [rbind];
    [|reflexivity].
  now rewrite IH.
Qed.

Lemma front_match_frame t_idx n :
  (forall q, q < 6 -> nth_error B' q = nth_error B q) ->
  front_match B' t_idx n = front_match B t_idx n.
Proof.
  intros Hagree. induction n as [|n IH]; cbn [front_match]; [reflexivity|].
  assert (Hq : nth_error B' (6 - S n) = nth_error B (6 - S n))
    by (apply Hagree; lia).
  destruct (Nat.ltb_spec (6 - S n) (length B')) as [Hlt'|Hge'];
    destruct (Nat.ltb_spec (6 - S n) (length B)) as [Hlt|Hge].
  - assert (E : nth (6 - S n) B' T = nth (6 - S n) B T).
    { rewrite (nth_error_nth' B' T Hlt'), (nth_error_nth' B T Hlt) in Hq.
      congruence. }
    now rewrite E, IH.
  - apply nth_error_None in Hge. apply nth_error_Some in Hlt'. congruence.
  - apply nth_error_None in Hge'. apply nth_error_Some in Hlt. congruence.
  - reflexivity.
Qed.

Lemma front_phase_frame n :
  (forall q, q < 6 -> nth_error B' q = nth_error B q) ->
  front_phase B' n = front_phase B n.
Proof.
  intros Hagree. induction n as [|n IH]; cbn [front_phase]; [reflexivity|].
  now rewrite front_match_frame, IH.
Qed.

(** The range depends on the bases at the two ends only. *)
Lemma trim_buffer_frame (data_end s e : nat) :
  6 <= data_end ->
  trim_buffer B data_end = Ok (s, e) ->
  (forall q, q < data_end ->
             q <= Nat.max s 5 \/ Nat.min (e - 1) (data_end - 6) <= q ->
             nth_error B' q = nth_error B q) ->
  trim_buffer B' data_end = Ok (s, e).
Proof.
  intros H6 Hr Hagree.
  destruct (trim_buffer_anatomy _ _ _ _ Hr)
    as (t0 & s0 & t1 & Hfront & Hf & Hback).
  pose proof (forward_scan_bounds _ _ _ _ _ _ Hf) as Hfb.
  assert (Hs0 : s0 <= 6) by (destruct Hfront as [[_ ->]|(_ & _ & ->)]; lia).
  unfold trim_buffer. rewrite front_phase_frame by (intros; apply Hagree; lia).
  replace (match front_phase B 6 with
           | Some t_idx => (t_idx, 6)
           | None => (0, 0)
           end) with (t0, s0)
    by (destruct Hfront as [[-> ->]|(-> & -> & ->)]; reflexivity).
  rewrite (forward_scan_frame _ _ _ _ _ Hf) by (intros; apply Hagree; lia).
  cbn [rbind].
  destruct Hback as [[Hshort ->] | (Hlong & t2 & e0 & t3 & Hphase & Hw)].
  - destruct (Nat.ltb_spec data_end (s + 6)); [reflexivity | lia].
  - destruct (Nat.ltb_spec data_end (s + 6)); [lia|].
    pose proof (backward_scan_bounds _ _ _ _ _ _ Hw) as Hwb.
    assert (He0 : data_end - 6 <= e0 <= data_end /\ s <= e0)
      by (destruct Hphase as [[_ ->]|(_ & _ & ->)]; lia).
    rewrite back_phase_frame by (try assumption; intros; apply Hagree; lia).
    destruct Hphase as [[-> ->]|(-> & -> & ->)]; cbn [rbind];
      (erewrite backward_scan_frame;
       [reflexivity | lia | eassumption | intros; apply Hagree; lia]).
Qed.
End Frame.

Section EndsOnly.
Context {H : Type} `{HelixStream H}.
Variables helix helix' : H.

(** X12. The range depends on the two ends only: when a stream gives the
    range [s, e), a stream of the same length whose first chunk has the same
    bases up to index max(s, 5) and from index min(e - 1, length - 6) on
    gives the same range, whatever it holds in between. *)
Theorem getDataRange_reads_ends_only (s e : nat) :
  let buffer := fst (read (seek 0%N helix)) in
  let buffer' := fst (read (seek 0%N helix')) in
  let data_end := N.to_nat (helix_len helix) in
  helix_len helix' = helix_len helix ->
  getDataRange helix = Ok (s, e) ->
  (forall q, q < data_end ->
             q <= Nat.max s 5 \/ Nat.min (e - 1) (data_end - 6) <= q ->
             nth_error buffer' q = nth_error buffer q) ->
  getDataRange helix' = Ok (s, e).
Proof.
  intros buffer buffer' data_end Hlen Hr Hagree.
  destruct (Nat.lt_ge_cases data_end 6) as [Hshort|Hlong].
  - rewrite getDataRange_short in Hr by assumption.
    rewrite getDataRange_short by (rewrite Hlen; assumption).
    now rewrite Hlen.
  - rewrite getDataRange_long in Hr by assumption.
    rewrite getDataRange_long by (rewrite Hlen; assumption).
    rewrite Hlen. now apply trim_buffer_frame with (B := buffer).
Qed.
End EndsOnly.

Lemma getDataRange_reads_ends_only_witness :
  getDataRange (new_fake_stream interior_period_data 128) = Ok (20, 28).
Proof.
  apply (getDataRange_reads_ends_only
           (new_fake_stream partial_both_ends_data 128)
           (new_fake_stream interior_period_data 128) 20 28).
  - reflexivity.
  - reflexivity.
  - intros q Hq Hends. change (q < 36) in Hq.
    change (q <= 20 \/ 27 <= q) in Hends.
    do 36 (destruct q as [|q]; [first [reflexivity | exfalso; lia]|]). lia.
Defined.

(** ** When compare returns *)

Section CompareReturns.
Context {P H : Type} `{Person P H}.
Variables a b : P.

Lemma skipped_spec idx :
  skipped a b idx = true <->
  idx = SEX_CHROMOSOME_IDX /\
  (getSex (chromosome a idx) <> getSex (chromosome b idx) \/
   getSex (chromosome a idx) = MAX \/ getSex (chromosome b idx) = MAX).
Proof.
  unfold skipped.
  destruct (Nat.eqb_spec idx SEX_CHROMOSOME_IDX) as [E|E]; simpl.
  - split.
    + intros Hs. split; [assumption|].
      destruct (getSex (chromosome a idx)), (getSex (chromosome b idx));
        simpl in Hs; try discriminate;
        first [ left; discriminate
              | right; left; reflexivity
              | right; right; reflexivity ].
    + intros [_ Hs].
      destruct (getSex (chromosome a idx)), (getSex (chromosome b idx));
        simpl; try reflexivity;
        destruct Hs as [Hne | [Hm | Hm]]; congruence.
  - split; [discriminate | tauto].
Qed.

Lemma compare_body_returns idx :
  snd (compare_body a b idx []) = Ok [] <->
  skipped a b idx = true \/
  (exists r, getDataRange (chromosome a idx) = Ok r) /\
  (exists r, getDataRange (chromosome b idx) = Ok r).
Proof.
  rewrite compare_body_result. destruct (skipped a b idx); [tauto|].
  destruct (getDataRange (chromosome a idx)) as [ra|fa];
    destruct (getDataRange (chromosome b idx)) as [rb|fb]; split;
    try discriminate; eauto;
    intros [Hs | [[r Hr] [r' Hr']]]; discriminate.
Qed.

Lemma compare_loop_bodies n : forall idx ret l,
  snd (compare_loop a b n idx ret) = Ok l ->
  forall j, idx <= j < idx + n -> snd (compare_body a b j ret) = Ok ret.
Proof.
  induction n as [|n IH]; intros idx ret l Hl j Hj; [lia|].
  cbn [compare_loop] in Hl. rewrite snd_tbind in Hl.
  destruct (compare_body_outcome a b idx ret) as [E | [i E]];
    rewrite E in Hl; [|discriminate].
  destruct (Nat.eq_dec j idx) as [-> | Hne]; [assumption|].
  apply (IH _ _ _ Hl). lia.
Qed.

Lemma compare_returns_bodies :
  snd (compare a b) = Ok [] <->
  chromosomes a = 23%N /\ chromosomes b = 23%N /\
  forall idx, idx < 23 -> snd (compare_body a b idx []) = Ok [].
Proof.
  split.
  - intros Hr.
    destruct (N.eq_dec (chromosomes a) 23) as [Ha|Ha];
      [|rewrite compare_invalid in Hr by auto; discriminate].
    destruct (N.eq_dec (chromosomes b) 23) as [Hb|Hb];
      [|rewrite compare_invalid in Hr by auto; discriminate].
    rewrite compare_valid in Hr by assumption.
    repeat split; try assumption.
    intros idx Hidx. apply (compare_loop_bodies _ _ _ _ Hr). lia.
  - intros (Ha & Hb & Hall). rewrite compare_valid by assumption.
    apply compare_loop_returns. intros j Hj. apply Hall. lia.
Qed.

End CompareReturns.

(** X14. Whether [compare] returns does not depend on the order of its two
    arguments. *)
Theorem compare_returns_symmetric {P H : Type} `{Person P H} (a b : P) :
  snd (compare a b) = Ok [] <-> snd (compare b a) = Ok [].
Proof.
  assert (Hhalf : forall x y : P,
            snd (compare x y) = Ok [] -> snd (compare y x) = Ok []).
  { intros x y. rewrite !compare_returns_bodies.
    intros (Hx & Hy & Hall). repeat split; try assumption.
    intros idx Hidx. specialize (Hall idx Hidx).
    apply compare_body_returns. apply compare_body_returns in Hall.
    destruct Hall as [Hs | [Hrx Hry]]; [left | right; auto].
    apply skipped_spec. apply skipped_spec in Hs as [E Hs].
    split; [assumption|]. destruct Hs as [Hne | [Hm | Hm]]; auto. }
  split; apply Hhalf.
Qed.
